(** * Gold OI Quant Analyzer: the market-series synchronisation engine

    A shallow embedding of the TypeScript sources

      - [types.ts]                   data model and constants,
      - [services/marketData.ts]     the simulator (bootstrap and per-tick generator),
      - [services/geminiService.ts]  the external fetch and analyse adapters,
      - [App.tsx]                    the React component that owns the state,
      - [components/AnalysisPanel.tsx] the refresh button,

    followed by the properties of the engine.

    Conventions of the embedding.

    - A JavaScript [number] that carries a price or a quantity is an exact
      rational ([Q]) in the model of the component; a rational stands for
      the double nearest to it.  Binary rounding is left out: the
      properties of computed prices and quantities are stated with a
      margin, and for moderate magnitudes, so that they also hold of the
      doubles the code computes with.  The values that are not finite
      numbers (NaN and the infinities) can only come in with a reply of the
      remote side; module [Wide] models the code that consumes a fetched
      point over numbers that include them.
    - [Date.now()] readings are integers ([Z], epoch milliseconds).
    - [Math.random()], [Date.now()] and the locale formatting of a time are
      inputs of the functions that call them.
    - An [async] function is cut at each [await]: the part before it runs in
      the step that starts the call, the part after it runs in the step that
      delivers the awaited outcome.  The suspended calls are kept in the
      state, with the values their closures captured.
    - A React state setter replaces the corresponding field of the state
      record.  An updater function passed to a setter is queued: React runs
      it on the current field with the next render, after the code that
      called the setter has gone on to its next [await]. *)

From Stdlib Require Import QArith Qround Qabs Lqa.
From stdpp Require Import base option list strings.

Local Open Scope Z_scope.

(** ** JavaScript numbers *)

Module JS.

(** [Math.floor]. *)
Definition Math_floor (x : Q) : Z := Qfloor x.

(** The integer [n] of [Number.prototype.toFixed]: for [x >= 0] the [n]
    with [n / 100 - x] closest to zero, the larger one on a tie; a negative
    [x] is negated first and the sign is put back. *)
Definition nearest_hundredth (x : Q) : Z :=
  if Qle_bool 0 x then Qfloor (x * 100 + (1 # 2))%Q
  else - Qfloor (- x * 100 + (1 # 2))%Q.

(** [parseFloat(x.toFixed(2))]: the decimal with two places nearest to [x]. *)
Definition toFixed2 (x : Q) : Q := (nearest_hundredth x # 100)%Q.

(** Exceptions that the modelled code raises or lets through. *)
Inductive exn : Type :=
  | TypeError                (* property read on [undefined] or [null],
                                property write on a primitive *)
  | SyntaxError              (* [JSON.parse] on malformed text *)
  | Error (msg : string)     (* [throw new Error(msg)] *)
  | RemoteFailure.           (* [generateContent] rejected *)

(** Outcome of a call that may throw (or of a promise that may reject). *)
Inductive result (A : Type) : Type :=
  | Ok (a : A)
  | Throw (e : exn).
Arguments Ok {A} a.
Arguments Throw {A} e.

Definition bind {A B} (r : result A) (k : A -> result B) : result B :=
  match r with Ok a => k a | Throw e => Throw e end.

(** [a[a.length - 1]] followed by a property read: [TypeError] on [[]]. *)
Definition last_elem {A} (a : list A) : result A :=
  match last a with Some x => Ok x | None => Throw TypeError end.

(** A string in a boolean position: the empty string is falsy. *)
Definition truthy (s : string) : bool :=
  match s with EmptyString => false | _ => true end.

End JS.

(** ** types.ts *)

Record MarketDataPoint : Type := mkPoint {
  timestamp : Z;
  timeLabel : string;
  spotPrice : Q;
  futurePrice : Q;
  openInterest : Q;
  volume : Q
}.

Inductive SeriesType : Type := MONTHLY | WEEKLY | DAILY.

Record OptionSeries : Type := mkOption {
  expiry : string;
  code : option string;
  callOI : Q;
  putOI : Q;
  type : option SeriesType
}.

Record Source : Type := mkSource { title : string; uri : string }.

Record MarketFetchResult : Type := mkFetch {
  dataPoint : MarketDataPoint;
  optionSeries : list OptionSeries;
  sources : list Source
}.

Inductive Sentiment : Type := BULLISH | BEARISH | NEUTRAL.
Inductive Trend : Type := RISING | FALLING | STABLE.

Record MarketAnalysis : Type := mkAnalysis {
  sentiment : Sentiment;
  confidence : Q;
  summary : string;
  recommendation : string;
  basis : Q;
  oiTrend : Trend;
  priceTrend : Trend;
  support : string;
  resistance : string;
  sourceUrls : list Source
}.

Inductive AnalysisStatus : Type := IDLE | LOADING | SUCCESS | ERROR.

Inductive DataSourceMode : Type := SIMULATION | LIVE_SEARCH.

Definition MOCK_START_PRICE : Q := 2350.
Definition MOCK_START_OI : Q := 450000.

(** Comparisons of numbers, as booleans. *)
Definition Qgtb (x y : Q) : bool := negb (Qle_bool x y).
Definition Qltb (x y : Q) : bool := negb (Qle_bool y x).

(** ** The host: what the code takes from its runtime

    The build-time environment, the JSON and regular-expression machinery
    and the locale formatting are used by the code as given functions. *)

(** The object that [JSON.parse] yields for the fetch prompt, with numbers
    in its four numeric fields; a field that is not an array is [None] in
    [p_optionSeries]. *)
Record ParsedData : Type := mkParsed {
  p_spotPrice : Q;
  p_futurePrice : Q;
  p_openInterest : Q;
  p_volume : Q;
  p_optionSeries : option (list OptionSeries)
}.

(** What [JSON.parse] can yield for the matched block: [null], a primitive
    (a number, a string or a boolean), or an object. *)
Inductive JsonBlock : Type :=
  | JsonNull
  | JsonPrimitive
  | JsonObject (parsedData : ParsedData).

Class Host : Type := {
  (** [process.env.API_KEY] *)
  process_env_API_KEY : option string;
  (** [d.toLocaleTimeString([], { hour: '2-digit', minute: '2-digit' })] of
      the date with epoch milliseconds [d] *)
  toLocaleTimeString : Z -> string;
  (** the two [text.match] of the fetch followed by [JSON.parse]: [None]
      when neither pattern matches or when [JSON.parse] throws *)
  parseJsonBlock : string -> option JsonBlock;
  (** [text.match(/[\d,]+\.?\d*/g)?.map(n => parseFloat(...)) || []], for
      a text in which every match holds a digit (a match made of commas
      only is read by [parseFloat] as NaN, which [Wide] covers) *)
  extractNumbers : string -> list Q;
  (** [JSON.parse(response.text) as MarketAnalysis], [None] when it throws
      or yields a value that cannot take the property [sourceUrls] *)
  parseAnalysis : string -> option MarketAnalysis
}.

(** ** services/marketData.ts *)

(** The four [Math.random()] calls of one generated point, in call order. *)
Record Draws : Type := mkDraws {
  u_change : Q;
  u_premium : Q;
  u_oi : Q;
  u_volume : Q
}.

(** The module-level variables [lastSpot], [lastFuture], [lastOI]. *)
Record SimState : Type := mkSim {
  lastSpot : Q;
  lastFuture : Q;
  lastOI : Q
}.

(** Their initialisers. *)
Definition initialSim : SimState :=
  {| lastSpot := MOCK_START_PRICE;
     lastFuture := (MOCK_START_PRICE + 15)%Q;
     lastOI := MOCK_START_OI |}.

(** [generateTimeLabels(count)]: [now] is the reading of [new Date()];
    the loop runs [i = count, count - 1, ..., 1]. *)
Definition generateTimeLabels `{Host} (now : Z) (count : nat) : list string :=
  (fun i : nat => toLocaleTimeString (now - Z.of_nat i * 15 * 60000))
    <$> reverse (seq 1 count).

(** The locals [change] and [oiChange] of the loop of
    [generateHistoricalData], from the draws of the iteration. *)
Definition historyChange (d : Draws) : Q := ((u_change d - (1 # 2)) * 5)%Q.

Definition oiBias (change : Q) : Q :=
  if Qgtb change 1 then 500 else if Qltb change (-1) then -500 else 0.

Definition historyOiChange (d : Draws) : Q :=
  ((u_oi d - (1 # 2)) * 1000 + oiBias (historyChange d))%Q.

(** One iteration [i] of the loop of [generateHistoricalData]; [clock i] is
    the reading of [Date.now()] in that iteration and [rnd i] its draws. *)
Definition historyStep (count : nat) (labels : list string)
    (clock : nat -> Z) (rnd : nat -> Draws)
    (acc : SimState * list MarketDataPoint) (i : nat)
    : SimState * list MarketDataPoint :=
  let change := historyChange (rnd i) in
  let futurePremium := (12 + u_premium (rnd i) * 5)%Q in
  let oiChange := historyOiChange (rnd i) in
  let lastSpot' := (lastSpot (fst acc) + change)%Q in
  let lastFuture' := (lastSpot' + futurePremium)%Q in
  let lastOI' := (lastOI (fst acc) + oiChange)%Q in
  ({| lastSpot := lastSpot'; lastFuture := lastFuture'; lastOI := lastOI' |},
   snd acc ++
     [ {| timestamp := clock i - (Z.of_nat count - Z.of_nat i) * 900000;
          timeLabel := default EmptyString (labels !! i);
          spotPrice := JS.toFixed2 lastSpot';
          futurePrice := JS.toFixed2 lastFuture';
          openInterest := inject_Z (JS.Math_floor lastOI');
          volume := inject_Z (JS.Math_floor (u_volume (rnd i) * 5000 + 1000)%Q) |} ]).

(** The loop [for (let i = 0; i < n; i++)] over the module state [st]. *)
Definition historyLoop (count : nat) (labels : list string)
    (clock : nat -> Z) (rnd : nat -> Draws) (st : SimState) (n : nat)
    : SimState * list MarketDataPoint :=
  foldl (historyStep count labels clock rnd) (st, []) (seq 0 n).

(** [generateHistoricalData(count)], from the module state [st]; returns
    the module state it leaves behind and the array.  [labelNow] is the
    clock reading taken by [generateTimeLabels]. *)
Definition generateHistoricalData `{Host} (st : SimState) (count : nat)
    (labelNow : Z) (clock : nat -> Z) (rnd : nat -> Draws)
    : SimState * list MarketDataPoint :=
  historyLoop count (generateTimeLabels labelNow count) clock rnd st count.

(** The locals [change] and [oiChange] of [fetchLatestDataPoint]. *)
Definition tickChange (d : Draws) : Q := ((u_change d - (1 # 2)) * 3)%Q.
Definition tickOiChange (d : Draws) : Q := ((u_oi d - (1 # 2)) * 500)%Q.

(** [fetchLatestDataPoint(previousData)]; [now] and [labelNow] are the
    readings of [Date.now()] and [new Date()]. *)
Definition fetchLatestDataPoint `{Host} (previousData : list MarketDataPoint)
    (d : Draws) (now labelNow : Z) : JS.result MarketDataPoint :=
  match JS.last_elem previousData with
  | JS.Throw e => JS.Throw e
  | JS.Ok lastPoint =>
      let change := tickChange d in
      let futurePremium := (12 + u_premium d * 4)%Q in
      let oiChange := tickOiChange d in
      let newSpot := (spotPrice lastPoint + change)%Q in
      let newFuture := (newSpot + futurePremium)%Q in
      let newOI := (openInterest lastPoint + oiChange)%Q in
      JS.Ok {| timestamp := now;
               timeLabel := toLocaleTimeString labelNow;
               spotPrice := JS.toFixed2 newSpot;
               futurePrice := JS.toFixed2 newFuture;
               openInterest := inject_Z (JS.Math_floor newOI);
               volume := inject_Z (JS.Math_floor (u_volume d * 2000 + 500)%Q) |}
  end.

(** [Math.floor(base + Math.random() * span)] with the [k]-th draw. *)
Definition randomOI (r : nat -> Q) (base span : Q) (k : nat) : Q :=
  inject_Z (JS.Math_floor (base + r k * span)%Q).
Arguments randomOI r (base span)%_Q k%_nat.

(** [generateSimulatedOptions()]; [r k] is its [k]-th [Math.random()]. *)
Definition generateSimulatedOptions (r : nat -> Q) : list OptionSeries :=
  [ mkOption "Dec 24" (Some "OGZ24") (randomOI r 15000 2000 0) (randomOI r 12000 2000 1) (Some MONTHLY);
    mkOption "Feb 25" (Some "OGG25") (randomOI r 8000 1000 2) (randomOI r 6000 1000 3) (Some MONTHLY);
    mkOption "Oct W4" (Some "OGV4") (randomOI r 3000 500 4) (randomOI r 2500 500 5) (Some WEEKLY);
    mkOption "Today (Mon)" (Some "1GO") (randomOI r 1200 300 6) (randomOI r 1500 300 7) (Some DAILY);
    mkOption "Tmrw (Tue)" (Some "2GO") (randomOI r 900 200 8) (randomOI r 800 200 9) (Some DAILY) ].

(** ** services/geminiService.ts *)

(** [chunk.web] of a grounding chunk. *)
Record WebChunk : Type := mkWeb {
  web_title : option string;
  web_uri : option string
}.

(** What the code reads of the value [ai.models.generateContent] resolves
    to: [response.text] and
    [response.candidates?.[0]?.groundingMetadata?.groundingChunks], each
    chunk with its optional [web]. *)
Record GenerateContentResponse : Type := mkResponse {
  text : option string;
  groundingChunks : option (list (option WebChunk))
}.

(** The outcome of the remote call: the response, or a rejection. *)
Definition Remote : Type := JS.result GenerateContentResponse.

Definition missingKeyMessage : string :=
  "API Key is missing. Please enter your Google Gemini API Key.".

(** [getAI(apiKey)]: the client is represented by its key. *)
Definition getAI `{Host} (apiKey : string) : JS.result string :=
  let key := if JS.truthy apiKey then Some apiKey else process_env_API_KEY in
  match key with
  | Some k => if JS.truthy k then JS.Ok k else JS.Throw (JS.Error missingKeyMessage)
  | None => JS.Throw (JS.Error missingKeyMessage)
  end.

(** [s || d] on an optional string. *)
Definition orElse (s : option string) (d : string) : string :=
  match s with
  | Some v => if JS.truthy v then v else d
  | None => d
  end.

(** The grounding sources of a response. *)
Definition groundingSources (response : GenerateContentResponse) : list Source :=
  match groundingChunks response with
  | Some chunks =>
      omap (fun chunk : option WebChunk =>
              match chunk with
              | Some web => Some {| title := orElse (web_title web) "Source";
                                    uri := orElse (web_uri web) "" |}
              | None => None
              end) chunks
  | None => []
  end.

(** The initial value of [parsedData]. *)
Definition emptyParsed : ParsedData :=
  {| p_spotPrice := 0; p_futurePrice := 0; p_openInterest := 0; p_volume := 0;
     p_optionSeries := Some [] |}.

(** [fetchRealTimeMarketData(apiKey)]; [remote] is the outcome of
    [generateContent], [now] and [labelNow] the two clock readings.  When
    the block parses to [null] the read of [parsedData.spotPrice] throws;
    when it parses to a primitive that read gives [undefined], and the
    fallback then throws on its own or on the write of
    [parsedData.spotPrice] (the module is in strict mode). *)
Definition fetchRealTimeMarketData `{Host} (apiKey : string) (remote : Remote)
    (now labelNow : Z) : JS.result MarketFetchResult :=
  match getAI apiKey with
  | JS.Throw e => JS.Throw e
  | JS.Ok _ =>
    match remote with
    | JS.Throw e => JS.Throw e                      (* [catch (error) { throw error }] *)
    | JS.Ok response =>
      let text := orElse (text response) "" in
      let parsed := default (JsonObject emptyParsed) (parseJsonBlock text) in
      let sources := groundingSources response in
      let validated : JS.result ParsedData :=
        match parsed with
        | JsonNull => JS.Throw JS.TypeError
        | JsonPrimitive =>
            match extractNumbers text with
            | _ :: _ :: _ :: _ => JS.Throw JS.TypeError
            | _ => JS.Throw (JS.Error "AI could not retrieve valid price data.")
            end
        | JsonObject parsedData =>
            if Qeq_bool (p_spotPrice parsedData) 0 then
              match extractNumbers text with
              | n0 :: n1 :: n2 :: _ =>
                  JS.Ok {| p_spotPrice := n0; p_futurePrice := n1;
                           p_openInterest := n2;
                           p_volume := p_volume parsedData;
                           p_optionSeries := p_optionSeries parsedData |}
              | _ => JS.Throw (JS.Error "AI could not retrieve valid price data.")
              end
            else JS.Ok parsedData
        end in
      match validated with
      | JS.Throw e => JS.Throw e
      | JS.Ok parsedData =>
          JS.Ok {| dataPoint :=
                     {| timestamp := now;
                        timeLabel := toLocaleTimeString labelNow;
                        spotPrice := p_spotPrice parsedData;
                        futurePrice := p_futurePrice parsedData;
                        openInterest := p_openInterest parsedData;
                        volume := if Qeq_bool (p_volume parsedData) 0 then 1000
                                  else p_volume parsedData |};
                   optionSeries := default [] (p_optionSeries parsedData);
                   sources := sources |}
      end
    end
  end.

(** The object returned by the [catch] of [analyzeMarketData]. *)
Definition fallbackAnalysis (basis : Q) : MarketAnalysis :=
  {| sentiment := NEUTRAL;
     confidence := 0;
     summary := "ไม่สามารถเชื่อมต่อ AI ได้ หรือ API Key ไม่ถูกต้อง โปรดตรวจสอบ Key และลองใหม่อีกครั้ง";
     recommendation := "ชะลอการซื้อขายจนกว่าข้อมูลจะกลับมาเป็นปกติ";
     basis := basis;
     oiTrend := STABLE;
     priceTrend := STABLE;
     support := "-";
     resistance := "-";
     sourceUrls := [] |}.

(** The body of the [try] of [analyzeMarketData]. *)
Definition analysisAttempt `{Host} (sources : list Source) (remote : Remote)
    : JS.result MarketAnalysis :=
  match remote with
  | JS.Throw e => JS.Throw e
  | JS.Ok response =>
      if JS.truthy (orElse (text response) "") then
        match parseAnalysis (orElse (text response) "") with
        | Some analysis =>
            JS.Ok {| sentiment := sentiment analysis;
                     confidence := confidence analysis;
                     summary := summary analysis;
                     recommendation := recommendation analysis;
                     basis := basis analysis;
                     oiTrend := oiTrend analysis;
                     priceTrend := priceTrend analysis;
                     support := support analysis;
                     resistance := resistance analysis;
                     sourceUrls := sources |}
        | None => JS.Throw JS.SyntaxError
        end
      else JS.Throw (JS.Error "Empty response from AI")
  end.

(** [analyzeMarketData(data, sources, apiKey, userPrompt)]; [remote] is the
    outcome of [generateContent].  [getAI] and the reads of [latest] and
    [previous] come before the [try]; the prompt only reaches the remote
    side. *)
Definition analyzeMarketData `{Host} (data : list MarketDataPoint)
    (sources : list Source) (apiKey : string) (userPrompt : string)
    (remote : Remote) : JS.result MarketAnalysis :=
  match getAI apiKey with
  | JS.Throw e => JS.Throw e
  | JS.Ok _ =>
    match JS.last_elem data with
    | JS.Throw e => JS.Throw e
    | JS.Ok latest =>
        let basis := (futurePrice latest - spotPrice latest)%Q in
        match analysisAttempt sources remote with
        | JS.Ok analysis => JS.Ok analysis
        | JS.Throw _ => JS.Ok (fallbackAnalysis basis)
        end
    end
  end.

(** ** App.tsx *)

(** A call suspended at an [await] (or a promise with a [then] attached),
    with what its closure holds. *)
Inductive Suspended : Type :=
  (** [fetchLiveValues] at [await fetchRealTimeMarketData(apiKey)] *)
  | AwaitFetch (key question : string)
  (** [fetchLiveValues] at [await analyzeMarketData(...)] *)
  | AwaitAnalysis (arg : list MarketDataPoint) (srcs : list Source)
                  (key question : string)
  (** [handleManualRefresh] at [analyzeMarketData(...).then(...)] *)
  | AwaitManualAnalysis (arg : list MarketDataPoint) (key question : string).

(** The [useState] cells of [App], and the suspended calls. *)
Record AppState : Type := mkApp {
  data : list MarketDataPoint;
  optionData : list OptionSeries;
  analysis : option MarketAnalysis;
  analysisStatus : AnalysisStatus;
  dataMode : DataSourceMode;
  isDataLoading : bool;
  apiKey : string;
  userQuestion : string;
  isAutoUpdate : bool;
  nextUpdateCountdown : Z;
  inFlight : list Suspended
}.

(** The state setters. *)
Definition setData (v : list MarketDataPoint) (st : AppState) : AppState :=
  mkApp v (optionData st) (analysis st) (analysisStatus st) (dataMode st) (isDataLoading st) (apiKey st) (userQuestion st) (isAutoUpdate st) (nextUpdateCountdown st) (inFlight st).
Definition setOptionData (v : list OptionSeries) (st : AppState) : AppState :=
  mkApp (data st) v (analysis st) (analysisStatus st) (dataMode st) (isDataLoading st) (apiKey st) (userQuestion st) (isAutoUpdate st) (nextUpdateCountdown st) (inFlight st).
Definition setAnalysis (v : option MarketAnalysis) (st : AppState) : AppState :=
  mkApp (data st) (optionData st) v (analysisStatus st) (dataMode st) (isDataLoading st) (apiKey st) (userQuestion st) (isAutoUpdate st) (nextUpdateCountdown st) (inFlight st).
Definition setAnalysisStatus (v : AnalysisStatus) (st : AppState) : AppState :=
  mkApp (data st) (optionData st) (analysis st) v (dataMode st) (isDataLoading st) (apiKey st) (userQuestion st) (isAutoUpdate st) (nextUpdateCountdown st) (inFlight st).
Definition setDataMode (v : DataSourceMode) (st : AppState) : AppState :=
  mkApp (data st) (optionData st) (analysis st) (analysisStatus st) v (isDataLoading st) (apiKey st) (userQuestion st) (isAutoUpdate st) (nextUpdateCountdown st) (inFlight st).
Definition setIsDataLoading (v : bool) (st : AppState) : AppState :=
  mkApp (data st) (optionData st) (analysis st) (analysisStatus st) (dataMode st) v (apiKey st) (userQuestion st) (isAutoUpdate st) (nextUpdateCountdown st) (inFlight st).
Definition setApiKey (v : string) (st : AppState) : AppState :=
  mkApp (data st) (optionData st) (analysis st) (analysisStatus st) (dataMode st) (isDataLoading st) v (userQuestion st) (isAutoUpdate st) (nextUpdateCountdown st) (inFlight st).
Definition setUserQuestion (v : string) (st : AppState) : AppState :=
  mkApp (data st) (optionData st) (analysis st) (analysisStatus st) (dataMode st) (isDataLoading st) (apiKey st) v (isAutoUpdate st) (nextUpdateCountdown st) (inFlight st).
Definition setIsAutoUpdate (v : bool) (st : AppState) : AppState :=
  mkApp (data st) (optionData st) (analysis st) (analysisStatus st) (dataMode st) (isDataLoading st) (apiKey st) (userQuestion st) v (nextUpdateCountdown st) (inFlight st).
Definition setNextUpdateCountdown (v : Z) (st : AppState) : AppState :=
  mkApp (data st) (optionData st) (analysis st) (analysisStatus st) (dataMode st) (isDataLoading st) (apiKey st) (userQuestion st) (isAutoUpdate st) v (inFlight st).
Definition setInFlight (v : list Suspended) (st : AppState) : AppState :=
  mkApp (data st) (optionData st) (analysis st) (analysisStatus st) (dataMode st) (isDataLoading st) (apiKey st) (userQuestion st) (isAutoUpdate st) (nextUpdateCountdown st) v.

(** The initial values of the cells. *)
Definition initialState : AppState :=
  {| data := []; optionData := []; analysis := None; analysisStatus := IDLE;
     dataMode := LIVE_SEARCH; isDataLoading := false; apiKey := "";
     userQuestion := ""; isAutoUpdate := false; nextUpdateCountdown := 60;
     inFlight := [] |}.

(** [{...p, spotPrice: ..., futurePrice: ...}] of the history adjustment. *)
Definition shiftPoint (priceDiff : Q) (p : MarketDataPoint) : MarketDataPoint :=
  {| timestamp := timestamp p;
     timeLabel := timeLabel p;
     spotPrice := JS.toFixed2 (spotPrice p + priceDiff)%Q;
     futurePrice := JS.toFixed2 (futurePrice p + priceDiff)%Q;
     openInterest := openInterest p;
     volume := volume p |}.

(** [prev.map(p => ...)] with the offset [priceDiff]. *)
Definition adjustedHistory (priceDiff : Q) (prev : list MarketDataPoint)
    : list MarketDataPoint :=
  shiftPoint priceDiff <$> prev.

(** The updater that [fetchLiveValues] passes to [setData]. *)
Definition liveUpdater (dataPoint : MarketDataPoint) (prev : list MarketDataPoint)
    : JS.result (list MarketDataPoint) :=
  match JS.last_elem prev with
  | JS.Throw e => JS.Throw e
  | JS.Ok lastSimulated =>
      let priceDiff := (spotPrice dataPoint - spotPrice lastSimulated)%Q in
      let newData := drop 1 (adjustedHistory priceDiff prev) ++ [dataPoint] in
      JS.Ok newData
  end.

(** The updater that the simulation loop passes to [setData]. *)
Definition simulationUpdater `{Host} (d : Draws) (now labelNow : Z)
    (prev : list MarketDataPoint) : JS.result (list MarketDataPoint) :=
  match fetchLatestDataPoint prev d now labelNow with
  | JS.Throw e => JS.Throw e
  | JS.Ok point => JS.Ok (drop 1 prev ++ [point])
  end.

(** [fetchLiveValues()] up to its first [await]. *)
Definition fetchLiveValues (st : AppState) : AppState :=
  setInFlight (inFlight st ++ [AwaitFetch (apiKey st) (userQuestion st)])
    (setAnalysisStatus LOADING (setIsDataLoading true st)).

(** [fetchLiveValues] from the first [await] to the second, or to its
    [catch]; [r] is what [fetchRealTimeMarketData] settled with.  [setData]
    queues the updater, which React runs with the render that follows: when
    [analyzeMarketData] is called [updatedData] is still the empty array it
    was initialised with, and the call gets [[dataPoint]].  The series is
    replaced by the result of the updater before the next event; an
    exception of the updater is raised in that render, outside the [try] of
    [fetchLiveValues], and takes the component down. *)
Definition afterFetch (key question : string) (r : JS.result MarketFetchResult)
    (st : AppState) : JS.result AppState :=
  match r with
  | JS.Throw _ => JS.Ok (setIsDataLoading false (setAnalysisStatus ERROR st))
  | JS.Ok res =>
      match liveUpdater (dataPoint res) (data st) with
      | JS.Throw e => JS.Throw e
      | JS.Ok newData =>
          let updatedData : list MarketDataPoint := [] in
          let st1 := setData newData st in
          let st2 := if (0 <? length (optionSeries res))%nat
                     then setOptionData (optionSeries res) st1 else st1 in
          let arg := if (0 <? length updatedData)%nat then updatedData
                     else [dataPoint res] in
          JS.Ok (setInFlight
                   (inFlight st2 ++ [AwaitAnalysis arg (sources res) key question])
                   st2)
      end
  end.

(** [fetchLiveValues] after the second [await]. *)
Definition afterAnalysis (r : JS.result MarketAnalysis) (st : AppState) : AppState :=
  match r with
  | JS.Ok analysisResult =>
      setIsDataLoading false
        (setNextUpdateCountdown 60
           (setAnalysisStatus SUCCESS (setAnalysis (Some analysisResult) st)))
  | JS.Throw _ => setIsDataLoading false (setAnalysisStatus ERROR st)
  end.

(** The [then] callback of [handleManualRefresh]; a rejection has no
    handler and changes nothing. *)
Definition afterManualAnalysis (r : JS.result MarketAnalysis) (st : AppState)
    : AppState :=
  match r with
  | JS.Ok res => setAnalysisStatus SUCCESS (setAnalysis (Some res) st)
  | JS.Throw _ => st
  end.

(** [handleManualRefresh()] up to the suspension. *)
Definition handleManualRefresh (st : AppState) : AppState :=
  match dataMode st with
  | LIVE_SEARCH => fetchLiveValues st
  | SIMULATION =>
      setInFlight
        (inFlight st ++ [AwaitManualAnalysis (data st) (apiKey st) (userQuestion st)])
        (setAnalysisStatus LOADING st)
  end.

(** [toggleMode()], then the effects that depend on [dataMode]: the cleanup
    of the auto-update effect resets the countdown, and the effect "Initial
    Fetch on Mode Change" calls [fetchLiveValues] on entering live mode. *)
Definition toggleMode (st : AppState) : AppState :=
  let mode := match dataMode st with
              | SIMULATION => LIVE_SEARCH
              | LIVE_SEARCH => SIMULATION
              end in
  let st1 := setIsAutoUpdate false
               (setAnalysisStatus IDLE (setAnalysis None (setDataMode mode st))) in
  let st2 := setNextUpdateCountdown 60 st1 in
  match mode with
  | LIVE_SEARCH => fetchLiveValues st2
  | SIMULATION => st2
  end.

(** The condition under which the simulation interval exists. *)
Definition simulationRunning (st : AppState) : bool :=
  match dataMode st with
  | SIMULATION => (0 <? length (data st))%nat
  | LIVE_SEARCH => false
  end.

(** The condition under which the auto-update interval and the countdown
    interval exist. *)
Definition autoUpdateRunning (st : AppState) : bool :=
  match dataMode st with
  | LIVE_SEARCH => isAutoUpdate st
  | SIMULATION => false
  end.

(** [disabled={status === AnalysisStatus.LOADING}] of the refresh button. *)
Definition refreshDisabled (st : AppState) : bool :=
  match analysisStatus st with LOADING => true | _ => false end.

(** What can happen to the mounted component: a timer fires, a suspended
    call is resumed with the outcome of its remote request, or the user acts
    on a control.  The payloads are the readings of the random source and
    of the clock that the handler takes. *)
Inductive Event : Type :=
  | SimulationTick (d : Draws) (now labelNow : Z) (u : Q) (r : nat -> Q)
  | AutoUpdateTick
  | CountdownTick
  | Settle (i : nat) (remote : Remote) (now labelNow : Z)
  | ClickRefresh
  | ClickToggleMode
  | ClickAutoUpdate
  | ChangeApiKey (s : string)
  | ChangeQuestion (s : string).

(** Resuming the suspended call [call], which has been taken out of the
    list, with the remote outcome [remote]. *)
Definition resume `{Host} (call : Suspended) (remote : Remote)
    (now labelNow : Z) (st : AppState) : JS.result AppState :=
  match call with
  | AwaitFetch key question =>
      afterFetch key question
        (fetchRealTimeMarketData key remote now labelNow) st
  | AwaitAnalysis arg srcs key question =>
      JS.Ok (afterAnalysis (analyzeMarketData arg srcs key question remote) st)
  | AwaitManualAnalysis arg key question =>
      JS.Ok (afterManualAnalysis (analyzeMarketData arg [] key question remote) st)
  end.

(** One event.  A timer that does not exist and a control that is disabled
    or not rendered leave the state as it is; [Throw] is an exception that
    escapes into React. *)
Definition step `{Host} (st : AppState) (ev : Event) : JS.result AppState :=
  match ev with
  | SimulationTick d now labelNow u r =>
      if simulationRunning st then
        match simulationUpdater d now labelNow (data st) with
        | JS.Throw e => JS.Throw e
        | JS.Ok newData =>
            let st1 := setData newData st in
            JS.Ok (if Qgtb u (7 # 10)
                   then setOptionData (generateSimulatedOptions r) st1
                   else st1)
        end
      else JS.Ok st
  | AutoUpdateTick =>
      JS.Ok (if autoUpdateRunning st then fetchLiveValues st else st)
  | CountdownTick =>
      JS.Ok (if autoUpdateRunning st
             then setNextUpdateCountdown
                    (if 0 <? nextUpdateCountdown st
                     then nextUpdateCountdown st - 1 else 60) st
             else st)
  | Settle i remote now labelNow =>
      match inFlight st !! i with
      | Some call =>
          resume call remote now labelNow
            (setInFlight (delete i (inFlight st)) st)
      | None => JS.Ok st
      end
  | ClickRefresh =>
      JS.Ok (if refreshDisabled st then st else handleManualRefresh st)
  | ClickToggleMode => JS.Ok (toggleMode st)
  | ClickAutoUpdate =>
      JS.Ok (match dataMode st with
             | LIVE_SEARCH =>
                 setNextUpdateCountdown 60
                   (setIsAutoUpdate (negb (isAutoUpdate st)) st)
             | SIMULATION => st
             end)
  | ChangeApiKey s =>
      JS.Ok (if String.eqb s (apiKey st) then st
             else setNextUpdateCountdown 60 (setApiKey s st))
  | ChangeQuestion s =>
      JS.Ok (if String.eqb s (userQuestion st) then st
             else setNextUpdateCountdown 60 (setUserQuestion s st))
  end.

(** A sequence of events. *)
Fixpoint run `{Host} (st : AppState) (evs : list Event) : JS.result AppState :=
  match evs with
  | [] => JS.Ok st
  | ev :: evs' =>
      match step st ev with
      | JS.Ok st' => run st' evs'
      | JS.Throw e => JS.Throw e
      end
  end.

(** The mount effects: the history of 50 points and the simulated options
    are stored, and, the initial mode being [LIVE_SEARCH], the first fetch
    is started. *)
Definition mount `{Host} (labelNow : Z) (clock : nat -> Z) (rnd : nat -> Draws)
    (r : nat -> Q) : AppState :=
  fetchLiveValues
    (setOptionData (generateSimulatedOptions r)
       (setData (snd (generateHistoricalData initialSim 50 labelNow clock rnd))
          initialState)).

(** The simulation loop alone: the series after the ticks [ticks], each
    with its draws and its two clock readings. *)
Fixpoint simulate `{Host} (prev : list MarketDataPoint)
    (ticks : list (Draws * Z * Z)) : JS.result (list MarketDataPoint) :=
  match ticks with
  | [] => JS.Ok prev
  | (d, now, labelNow) :: ticks' =>
      match simulationUpdater d now labelNow prev with
      | JS.Throw e => JS.Throw e
      | JS.Ok newData => simulate newData ticks'
      end
  end.

(** The points that [fetchLatestDataPoint] returns during these ticks, in
    arrival order. *)
Fixpoint arrivals `{Host} (prev : list MarketDataPoint)
    (ticks : list (Draws * Z * Z)) : list MarketDataPoint :=
  match ticks with
  | [] => []
  | (d, now, labelNow) :: ticks' =>
      match fetchLatestDataPoint prev d now labelNow with
      | JS.Throw _ => []
      | JS.Ok point => point :: arrivals (drop 1 prev ++ [point]) ticks'
      end
  end.

(** ** The live path over all JavaScript numbers

    A reply of the remote side is not validated beyond the test of
    [parsedData.spotPrice]: the regular-expression fallback reads a match
    made of commas only as NaN, and [JSON.parse] reads a number beyond the
    range of the doubles as an infinity.  The code that consumes the fetched
    point, which is the updater of the live refresh and the values of the
    stat cards, is modelled here a second time, over numbers that include
    these values. *)

Module Wide.

(** A JavaScript number: a finite value, NaN, or an infinity with its sign. *)
Inductive number : Type :=
  | Num (q : Q)
  | NaN
  | Infinity (negative : bool).

(** [a + b] *)
Definition add (a b : number) : number :=
  match a, b with
  | NaN, _ => NaN
  | _, NaN => NaN
  | Num x, Num y => Num (x + y)
  | Num _, Infinity s => Infinity s
  | Infinity s, Num _ => Infinity s
  | Infinity s, Infinity s' => if Bool.eqb s s' then Infinity s else NaN
  end.

(** [a - b] *)
Definition sub (a b : number) : number :=
  match a, b with
  | NaN, _ => NaN
  | _, NaN => NaN
  | Num x, Num y => Num (x - y)
  | Num _, Infinity s => Infinity (negb s)
  | Infinity s, Num _ => Infinity s
  | Infinity s, Infinity s' => if Bool.eqb s s' then NaN else Infinity s
  end.

(** [parseFloat(x.toFixed(2))]: [toFixed] prints NaN and the infinities by
    name, and [parseFloat] reads the names back. *)
Definition toFixed2 (x : number) : number :=
  match x with
  | Num q => Num (JS.toFixed2 q)
  | NaN => NaN
  | Infinity s => Infinity s
  end.

(** A [MarketDataPoint] as the code can hold it at run time. *)
Record Point : Type := mkPoint {
  timestamp : Z;
  timeLabel : string;
  spotPrice : number;
  futurePrice : number;
  openInterest : number;
  volume : number
}.

(** [{...p, spotPrice: ..., futurePrice: ...}] of the history adjustment. *)
Definition shiftPoint (priceDiff : number) (p : Point) : Point :=
  {| timestamp := timestamp p;
     timeLabel := timeLabel p;
     spotPrice := toFixed2 (add (spotPrice p) priceDiff);
     futurePrice := toFixed2 (add (futurePrice p) priceDiff);
     openInterest := openInterest p;
     volume := volume p |}.

(** [prev.map(p => ...)] with the offset [priceDiff]. *)
Definition adjustedHistory (priceDiff : number) (prev : list Point) : list Point :=
  shiftPoint priceDiff <$> prev.

(** The characters [,] and [.]. *)
Definition comma : Ascii.ascii := Ascii.ascii_of_nat 44.
Definition point : Ascii.ascii := Ascii.ascii_of_nat 46.

(** [n.replace(/,/g, '')] *)
Fixpoint removeCommas (n : string) : string :=
  match n with
  | EmptyString => EmptyString
  | String c rest =>
      if Ascii.eqb c comma then removeCommas rest
      else String c (removeCommas rest)
  end.

(** The value of a decimal digit. *)
Definition digit (c : Ascii.ascii) : option Z :=
  let n := Z.of_N (Ascii.N_of_ascii c) in
  if (48 <=? n) && (n <=? 57) then Some (n - 48) else None.

(** The digits at the start of [s], read after the digits that gave
    [value]: the value of all of them, their number, and the rest of [s]. *)
Fixpoint leadingDigits (s : string) (value : Z) (count : nat) : Z * nat * string :=
  match s with
  | EmptyString => (value, count, s)
  | String c rest =>
      match digit c with
      | Some d => leadingDigits rest (value * 10 + d) (S count)
      | None => (value, count, s)
      end
  end.

(** The doubles end below [2^1024]: a value from [2^1024 - 2^970] on is
    read as [Infinity]. *)
Definition ofDecimal (v : Q) : number :=
  if Qle_bool (inject_Z (2 ^ 1024 - 2 ^ 970)) v then Infinity false else Num v.

(** [parseFloat(s)] for a string made of digits with at most one point
    among them, which is what a match of [/[\d,]+\.?\d*/] is once its commas
    are removed: the digits before and after the point are read; there is
    no number when there is no digit at all. *)
Definition parseFloat (s : string) : number :=
  let '(whole, nWhole, rest) := leadingDigits s 0 0 in
  let '(all, nAll, _) :=
    match rest with
    | String c fraction =>
        if Ascii.eqb c point then leadingDigits fraction whole nWhole
        else (whole, nWhole, rest)
    | EmptyString => (whole, nWhole, rest)
    end in
  if (nAll =? 0)%nat then NaN
  else ofDecimal (Qred (all # Z.to_pos (10 ^ Z.of_nat (nAll - nWhole)))).

(** [parseFloat(n.replace(/,/g, ''))] of a match [n]. *)
Definition parseMatch (n : string) : number := parseFloat (removeCommas n).

(** [fetchRealTimeMarketData] from the validation on, for a response whose
    text holds no JSON block (or one that [JSON.parse] refuses), so that
    [parsedData] still has its initial zeros: [matches] are the matches of
    [/[\d,]+\.?\d*/g] in the text. *)
Definition fetchFallback `{Host} (matches : list string) (now labelNow : Z)
    : JS.result Point :=
  let numbers := parseMatch <$> matches in
  match numbers with
  | n0 :: n1 :: n2 :: _ =>
      JS.Ok {| timestamp := now;
               timeLabel := toLocaleTimeString labelNow;
               spotPrice := n0;
               futurePrice := n1;
               openInterest := n2;
               volume := Num 1000 |}
  | _ => JS.Throw (JS.Error "AI could not retrieve valid price data.")
  end.

(** The updater that [fetchLiveValues] passes to [setData]. *)
Definition liveUpdater (dataPoint : Point) (prev : list Point)
    : JS.result (list Point) :=
  match JS.last_elem prev with
  | JS.Throw e => JS.Throw e
  | JS.Ok lastSimulated =>
      let priceDiff := sub (spotPrice dataPoint) (spotPrice lastSimulated) in
      let newData := drop 1 (adjustedHistory priceDiff prev) ++ [dataPoint] in
      JS.Ok newData
  end.

End Wide.

(** A point whose numbers are finite, among the points over all numbers. *)
Definition widen (p : MarketDataPoint) : Wide.Point :=
  {| Wide.timestamp := timestamp p;
     Wide.timeLabel := timeLabel p;
     Wide.spotPrice := Wide.Num (spotPrice p);
     Wide.futurePrice := Wide.Num (futurePrice p);
     Wide.openInterest := Wide.Num (openInterest p);
     Wide.volume := Wide.Num (volume p) |}.

(** ** App.tsx: the values derived from the series for the stat cards *)

Module Stats.

(** [data.length > 0 ? data[data.length - 1] : null] *)
Definition latest (data : list Wide.Point) : option Wide.Point :=
  if (0 <? length data)%nat then data !! (length data - 1)%nat else None.

(** [data.length > 1 ? data[data.length - 2] : null] *)
Definition previous (data : list Wide.Point) : option Wide.Point :=
  if (1 <? length data)%nat then data !! (length data - 2)%nat else None.

(** [latest && previous ? latest.spotPrice - previous.spotPrice : 0] *)
Definition priceDiff (data : list Wide.Point) : Wide.number :=
  match latest data, previous data with
  | Some l, Some p => Wide.sub (Wide.spotPrice l) (Wide.spotPrice p)
  | _, _ => Wide.Num 0
  end.

(** [latest && previous ? latest.openInterest - previous.openInterest : 0] *)
Definition oiDiff (data : list Wide.Point) : Wide.number :=
  match latest data, previous data with
  | Some l, Some p => Wide.sub (Wide.openInterest l) (Wide.openInterest p)
  | _, _ => Wide.Num 0
  end.

(** [latest ? latest.futurePrice - latest.spotPrice : 0] *)
Definition basis (data : list Wide.Point) : Wide.number :=
  match latest data with
  | Some l => Wide.sub (Wide.futurePrice l) (Wide.spotPrice l)
  | None => Wide.Num 0
  end.

End Stats.

(** ** components/AnalysisPanel.tsx: what the panel shows *)

Module Panel.

(** [!analysis && status !== AnalysisStatus.LOADING]: the empty state. *)
Definition showsEmpty (analysis : option MarketAnalysis) (status : AnalysisStatus)
    : bool :=
  match analysis, status with
  | None, LOADING => false
  | None, _ => true
  | Some _, _ => false
  end.

(** [status === AnalysisStatus.LOADING]: the spinner. *)
Definition showsLoading (analysis : option MarketAnalysis)
    (status : AnalysisStatus) : bool :=
  match status with LOADING => true | _ => false end.

(** [analysis && status !== AnalysisStatus.LOADING]: the result. *)
Definition showsResult (analysis : option MarketAnalysis)
    (status : AnalysisStatus) : bool :=
  match analysis, status with
  | Some _, LOADING => false
  | Some _, _ => true
  | None, _ => false
  end.

(** The panes of the panel for a state of the component. *)
Definition panes (st : AppState) : bool * bool * bool :=
  (showsEmpty (analysis st) (analysisStatus st),
   showsLoading (analysis st) (analysisStatus st),
   showsResult (analysis st) (analysisStatus st)).

End Panel.

(** ** components/OptionChain.tsx: the rows of the bar chart *)

(** A row of [displayData]: the fields of the series, and the two labels
    (the placeholder row has no [fullLabel]). *)
Record DisplayRow : Type := mkRow {
  row_expiry : string;
  row_code : option string;
  row_callOI : Q;
  row_putOI : Q;
  row_type : option SeriesType;
  displayLabel : string;
  fullLabel : option string
}.

(** [d.type ? d.type.substring(0,1) : 'M'] *)
Definition typeInitial (t : option SeriesType) : string :=
  match t with
  | Some MONTHLY => "M"
  | Some WEEKLY => "W"
  | Some DAILY => "D"
  | None => "M"
  end.

(** The object built by the [map] of [displayData]; both branches of
    [d.code ? `${d.expiry}` : d.expiry] are the expiry. *)
Definition displayRow (d : OptionSeries) : DisplayRow :=
  {| row_expiry := expiry d;
     row_code := code d;
     row_callOI := callOI d;
     row_putOI := putOI d;
     row_type := type d;
     displayLabel := match code d with
                     | Some c => if JS.truthy c then expiry d else expiry d
                     | None => expiry d
                     end;
     fullLabel := Some (expiry d ++ " (" ++ typeInitial (type d) ++ ")")%string |}.

(** The placeholder row. *)
Definition noDataRow : DisplayRow :=
  {| row_expiry := "No Data"; row_code := Some "-"; row_callOI := 0;
     row_putOI := 0; row_type := Some MONTHLY; displayLabel := "No Data";
     fullLabel := None |}.

(** [displayData] of [OptionChain]. *)
Definition displayData (data : list OptionSeries) : list DisplayRow :=
  if (0 <? length data)%nat then displayRow <$> data else [noDataRow].

(** [displayData[0].expiry === 'No Data' && !loading]: the overlay that says
    that no options were found. *)
Definition showsNoOptions (data : list OptionSeries) (loading : bool) : bool :=
  match displayData data !! 0%nat with
  | Some row => String.eqb (row_expiry row) "No Data" && negb loading
  | None => false
  end.

(** ** components/Charts.tsx: the axis domains *)






(** ** Measures used in the properties *)

(** The number of settlements a suspended call still needs: a fetch is
    followed by an analysis. *)
Definition settlesLeft (call : Suspended) : nat :=
  match call with
  | AwaitFetch _ _ => 2
  | AwaitAnalysis _ _ _ _ => 1
  | AwaitManualAnalysis _ _ _ => 1
  end.

Definition pendingWork (st : AppState) : nat :=
  sum_list (settlesLeft <$> inFlight st).

(** The timestamps of a series increase strictly. *)
Definition increasing (l : list MarketDataPoint) : Prop :=
  forall (i j : nat) (x y : MarketDataPoint),
    (i < j)%nat -> l !! i = Some x -> l !! j = Some y ->
    timestamp x < timestamp y.

(** The states of the mounted component: those a sequence of events leads
    to from the state the mount effects leave. *)
Definition reachable `{Host} (st : AppState) : Prop :=
  exists (labelNow : Z) (clock : nat -> Z) (rnd : nat -> Draws) (r : nat -> Q)
         (evs : list Event),
    run (mount labelNow clock rnd r) evs = JS.Ok st.

(** The sliding-window append in the words of the specification: at
    capacity [N] the oldest point is evicted, below it the series grows by
    one; to be compared with [simulationUpdater]. *)
Definition appendWithCapacity (N : nat) (point : MarketDataPoint)
    (series : list MarketDataPoint) : list MarketDataPoint :=
  if (N <=? length series)%nat then drop 1 series ++ [point]
  else series ++ [point].

(** The bound on the magnitude of a price or a quantity under which the
    properties about computed numbers are stated. *)
Definition moderate (x : Q) : Prop := (Qabs x <= 1000000000)%Q.

(** A match made of [n] commas. *)
Fixpoint commas (n : nat) : string :=
  match n with
  | O => EmptyString
  | S m => String Wide.comma (commas m)
  end.

(** The events of a run of the simulation interval. *)
Definition simulationTicks (ticks : list (Draws * Z * Z)) (u : Q) (r : nat -> Q)
    : list Event :=
  (fun t : Draws * Z * Z => SimulationTick t.1.1 t.1.2 t.2 u r) <$> ticks.

(** ** Closed forms of the bootstrap loop *)

(** The module variables after [n] iterations of the bootstrap loop that
    starts from the module state [st]. *)
Fixpoint spotAfter (st : SimState) (rnd : nat -> Draws) (n : nat) : Q :=
  match n with
  | O => lastSpot st
  | S m => (spotAfter st rnd m + historyChange (rnd m))%Q
  end.

Fixpoint oiAfter (st : SimState) (rnd : nat -> Draws) (n : nat) : Q :=
  match n with
  | O => lastOI st
  | S m => (oiAfter st rnd m + historyOiChange (rnd m))%Q
  end.

Definition futureAfter (st : SimState) (rnd : nat -> Draws) (n : nat) : Q :=
  match n with
  | O => lastFuture st
  | S m => (spotAfter st rnd (S m) + (12 + u_premium (rnd m) * 5))%Q
  end.

(** The point pushed by iteration [i]. *)
Definition historyPoint (count : nat) (labels : list string)
    (clock : nat -> Z) (rnd : nat -> Draws) (st : SimState) (i : nat)
    : MarketDataPoint :=
  {| timestamp := clock i - (Z.of_nat count - Z.of_nat i) * 900000;
     timeLabel := default EmptyString (labels !! i);
     spotPrice := JS.toFixed2 (spotAfter st rnd (S i));
     futurePrice := JS.toFixed2 (futureAfter st rnd (S i));
     openInterest := inject_Z (JS.Math_floor (oiAfter st rnd (S i)));
     volume := inject_Z (JS.Math_floor (u_volume (rnd i) * 5000 + 1000)%Q) |}.

(** ** Sample data *)

(** A host for the examples: no key in the environment, a constant time
    label, a JSON reader that knows the two fetch replies "A" (spot 150) and
    "B" (spot 160) and the two analysis replies "bull" and "bear", and a
    number scanner that finds nothing. *)
Definition replyA : ParsedData :=
  {| p_spotPrice := 150; p_futurePrice := 165; p_openInterest := 450100;
     p_volume := 1200; p_optionSeries := None |}.

Definition replyB : ParsedData :=
  {| p_spotPrice := 160; p_futurePrice := 175; p_openInterest := 450200;
     p_volume := 1300; p_optionSeries := None |}.

Definition bullish : MarketAnalysis :=
  {| sentiment := BULLISH; confidence := 80; summary := "up";
     recommendation := "buy"; basis := 15; oiTrend := RISING;
     priceTrend := RISING; support := "148"; resistance := "152";
     sourceUrls := [] |}.

Definition bearish : MarketAnalysis :=
  {| sentiment := BEARISH; confidence := 70; summary := "down";
     recommendation := "sell"; basis := 15; oiTrend := RISING;
     priceTrend := FALLING; support := "158"; resistance := "162";
     sourceUrls := [] |}.

Definition sampleHost : Host :=
  {| process_env_API_KEY := None;
     toLocaleTimeString := fun _ => "10:00";
     parseJsonBlock := fun t =>
       if String.eqb t "A" then Some (JsonObject replyA)
       else if String.eqb t "B" then Some (JsonObject replyB) else None;
     extractNumbers := fun _ => [];
     parseAnalysis := fun t =>
       if String.eqb t "bull" then Some bullish
       else if String.eqb t "bear" then Some bearish else None |}.

(** A remote response with the text [t], grounded on one page named [t]. *)
Definition replyWith (t : string) : Remote :=
  JS.Ok {| text := Some t;
           groundingChunks := Some [Some {| web_title := Some t;
                                            web_uri := Some "https://example.org" |}] |}.

(** A point of a test series: only the time and the spot price vary. *)
Definition samplePoint (t : Z) (spot : Q) : MarketDataPoint :=
  {| timestamp := t; timeLabel := "10:00"; spotPrice := spot;
     futurePrice := (spot + 15)%Q; openInterest := 450000; volume := 1000 |}.

(** The three-point history 100, 102, 101 and the authoritative point 150. *)
Definition sampleHistory : list MarketDataPoint :=
  [samplePoint 1 100; samplePoint 2 102; samplePoint 3 101].

(** The sample history reconciled with the point 150 (offset 49). *)
Definition sampleReconciled : list MarketDataPoint :=
  [shiftPoint 49 (samplePoint 2 102); shiftPoint 49 (samplePoint 3 101);
   samplePoint 4 150].

(** Draws in the middle of the range, and three ticks with them. *)
Definition sampleDraws : Draws :=
  {| u_change := 1 # 2; u_premium := 1 # 2; u_oi := 1 # 2; u_volume := 1 # 2 |}.

Definition sampleTicks : list (Draws * Z * Z) :=
  [(sampleDraws, 10, 10); (sampleDraws, 20, 20); (sampleDraws, 30, 30);
   (sampleDraws, 40, 40)].

(** The clock reading used in the examples. *)
Definition sampleNow : Z := 1700000000000.

(** Draws of a rally and of a sell-off for one tick, with the same draw for
    the open interest. *)
Definition rallyDraws : Draws :=
  {| u_change := 19 # 20; u_premium := 1 # 2; u_oi := 0; u_volume := 1 # 2 |}.
Definition selloffDraws : Draws :=
  {| u_change := 1 # 20; u_premium := 1 # 2; u_oi := 0; u_volume := 1 # 2 |}.

(** Live mode with auto-update on, a key typed in, nothing in flight. *)
Definition liveIdle : AppState :=
  {| data := sampleHistory; optionData := []; analysis := None;
     analysisStatus := IDLE; dataMode := LIVE_SEARCH; isDataLoading := false;
     apiKey := "k"; userQuestion := ""; isAutoUpdate := true;
     nextUpdateCountdown := 60; inFlight := [] |}.

(** The same with one refresh cycle started and its fetch in flight. *)
Definition liveBusy : AppState := fetchLiveValues liveIdle.

(** The observations made on a state in the examples: the timestamps and
    the spot prices of the series, the mode, the status, the sentiment and
    the source titles of the analysis on display, and the number of
    suspended calls. *)
Definition observe (st : AppState)
    : list Z * list Q * DataSourceMode * AnalysisStatus
      * option Sentiment * option (list string) * nat :=
  (timestamp <$> data st, Qred <$> (spotPrice <$> data st), dataMode st,
   analysisStatus st, sentiment <$> analysis st,
   (fun a => title <$> sourceUrls a) <$> analysis st, length (inFlight st)).

(** Simulated mode entered while the fetch of [liveBusy] is in flight. *)
Definition switchedDuringFetch : AppState := toggleMode liveBusy.

(** Simulated mode, no key typed in. *)
Definition simulationNoKey : AppState :=
  {| data := sampleHistory; optionData := []; analysis := None;
     analysisStatus := IDLE; dataMode := SIMULATION; isDataLoading := false;
     apiKey := ""; userQuestion := ""; isAutoUpdate := false;
     nextUpdateCountdown := 60; inFlight := [] |}.

(** A formatter that shows the epoch minutes, for the examples. *)
Definition minuteHost : Host :=
  {| process_env_API_KEY := None;
     toLocaleTimeString := fun t =>
       if (t =? sampleNow - 900000) then "last" else "earlier";
     parseJsonBlock := fun _ => None;
     extractNumbers := fun _ => [];
     parseAnalysis := fun _ => None |}.

(** The last point of a bootstrap of five with constant draws. *)
Definition sampleBootstrapLast : MarketDataPoint :=
  {| timestamp := sampleNow - 900000; timeLabel := "last";
     spotPrice := JS.toFixed2 (spotAfter initialSim (fun _ => sampleDraws) 5);
     futurePrice := JS.toFixed2 (futureAfter initialSim (fun _ => sampleDraws) 5);
     openInterest :=
       inject_Z (JS.Math_floor (oiAfter initialSim (fun _ => sampleDraws) 5));
     volume := inject_Z (JS.Math_floor (u_volume sampleDraws * 5000 + 1000)%Q) |}.

(** The draws of [Math.random()] lie in [[0, 1)]. *)
Definition unitDraws (d : Draws) : Prop :=
  (0 <= u_change d < 1)%Q /\ (0 <= u_premium d < 1)%Q /\
  (0 <= u_oi d < 1)%Q /\ (0 <= u_volume d < 1)%Q.

(** The sample history over all numbers, and a fetched point whose spot
    price is NaN, as the fetch returns it for a reply without a JSON block
    whose text begins with a lone comma, such as [", 165 450,100"]. *)
Definition wideHistory : list Wide.Point := widen <$> sampleHistory.


Definition nanPoint : Wide.Point :=
  {| Wide.timestamp := 4; Wide.timeLabel := "10:00"; Wide.spotPrice := Wide.NaN;
     Wide.futurePrice := Wide.Num 165; Wide.openInterest := Wide.Num 450100;
     Wide.volume := Wide.Num 1000 |}.

(** The component right after its mount, with draws in the middle of the
    range. *)
Definition sampleMounted : AppState :=
  @mount sampleHost sampleNow (fun _ => sampleNow) (fun _ => sampleDraws)
    (fun _ => (1 # 2)%Q).

(** A series with rounded prices: the sample history after one adjustment. *)
Definition roundedHistory : list MarketDataPoint := adjustedHistory 49 sampleHistory.

(** Simulated mode on the sample history. *)
Definition simulationIdle : AppState := setApiKey "k" simulationNoKey.

(** * Properties *)

(** ** Rounding to two decimal places *)

Lemma hundredth_inject (n : Z) : (n # 100 == inject_Z n * (1 # 100))%Q.
Proof. unfold Qeq, Qmult, inject_Z; simpl. lia. Qed.

(** [parseFloat(x.toFixed(2))] is within half a hundredth of [x]. *)
Lemma toFixed2_error (x : Q) : (Qabs (JS.toFixed2 x - x) <= 1 # 200)%Q.
Proof.
  unfold JS.toFixed2, JS.nearest_hundredth.
  destruct (Qle_bool 0 x) eqn:Hx.
  - pose proof (Qfloor_le (x * 100 + (1 # 2))) as Hl.
    pose proof (Qlt_floor (x * 100 + (1 # 2))) as Hu.
    rewrite hundredth_inject. rewrite inject_Z_plus in Hu.
    change (inject_Z 1) with 1%Q in Hu.
    set (n := inject_Z _) in *.
    apply Qabs_case; intros _; lra.
  - pose proof (Qfloor_le (- x * 100 + (1 # 2))) as Hl.
    pose proof (Qlt_floor (- x * 100 + (1 # 2))) as Hu.
    rewrite hundredth_inject, inject_Z_opp. rewrite inject_Z_plus in Hu.
    change (inject_Z 1) with 1%Q in Hu.
    set (n := inject_Z _) in *.
    apply Qabs_case; intros _; lra.
Qed.

(** ** Arrays *)

Lemma last_elem_Some {A} (l : list A) (x : A) :
  last l = Some x -> JS.last_elem l = JS.Ok x.
Proof. unfold JS.last_elem. by intros ->. Qed.

Lemma last_Some_length {A} (l : list A) (x : A) :
  last l = Some x -> (0 < length l)%nat.
Proof. destruct l; simpl; [done | lia]. Qed.

Lemma length_pos_last {A} (l : list A) :
  (0 < length l)%nat -> exists x, last l = Some x.
Proof.
  destruct l as [|a l] using rev_ind; simpl; [lia|].
  intros _. exists a. by rewrite last_snoc.
Qed.

(** [[...l.slice(1), x]] keeps the length of a non-empty [l] ... *)
Lemma evict_append_length {A} (l : list A) (x : A) :
  (0 < length l)%nat -> length (drop 1 l ++ [x]) = length l.
Proof. intros H. rewrite length_app, length_drop. simpl. lia. Qed.

(** ... and moves every element but the first one place down. *)
Lemma evict_append_lookup {A} (l : list A) (x : A) (i : nat) :
  (S i < length l)%nat -> (drop 1 l ++ [x]) !! i = l !! S i.
Proof.
  intros H. rewrite lookup_app_l by (rewrite length_drop; lia).
  by rewrite lookup_drop.
Qed.

(** ** History reconciliation *)

Lemma liveUpdater_eq (dataPoint lastSimulated : MarketDataPoint)
    (prev : list MarketDataPoint) :
  last prev = Some lastSimulated ->
  liveUpdater dataPoint prev =
    JS.Ok (drop 1 (adjustedHistory
                     (spotPrice dataPoint - spotPrice lastSimulated)%Q prev)
           ++ [dataPoint]).
Proof. intros H. unfold liveUpdater. by rewrite (last_elem_Some _ _ H). Qed.

(** On an empty series the updater throws. *)
Lemma liveUpdater_empty (dataPoint : MarketDataPoint) :
  liveUpdater dataPoint [] = JS.Throw JS.TypeError.
Proof. reflexivity. Qed.

Lemma adjustedHistory_length (priceDiff : Q) (prev : list MarketDataPoint) :
  length (adjustedHistory priceDiff prev) = length prev.
Proof. unfold adjustedHistory. apply length_fmap. Qed.

Lemma liveUpdater_lookup (dataPoint lastSimulated : MarketDataPoint)
    (prev newData : list MarketDataPoint) (i : nat) :
  last prev = Some lastSimulated ->
  liveUpdater dataPoint prev = JS.Ok newData ->
  (S i < length newData)%nat ->
  length newData = length prev /\
  newData !! i =
    shiftPoint (spotPrice dataPoint - spotPrice lastSimulated)%Q <$> prev !! S i.
Proof.
  intros Hlast Hupd Hi. rewrite (liveUpdater_eq _ _ _ Hlast) in Hupd.
  injection Hupd as <-.
  pose proof (last_Some_length _ _ Hlast) as Hlen.
  rewrite evict_append_length in Hi |- * by by rewrite adjustedHistory_length.
  rewrite adjustedHistory_length in Hi |- *. split; [done|].
  rewrite evict_append_lookup by by rewrite adjustedHistory_length.
  unfold adjustedHistory. by rewrite list_lookup_fmap.
Qed.

(** The same updater over all numbers. *)
Lemma wide_liveUpdater_eq (dataPoint lastSimulated : Wide.Point)
    (prev : list Wide.Point) :
  last prev = Some lastSimulated ->
  Wide.liveUpdater dataPoint prev =
    JS.Ok (drop 1 (Wide.adjustedHistory
                     (Wide.sub (Wide.spotPrice dataPoint)
                               (Wide.spotPrice lastSimulated)) prev)
           ++ [dataPoint]).
Proof. intros H. unfold Wide.liveUpdater. by rewrite (last_elem_Some _ _ H). Qed.

Lemma wide_adjustedHistory_length (priceDiff : Wide.number) (prev : list Wide.Point) :
  length (Wide.adjustedHistory priceDiff prev) = length prev.
Proof. unfold Wide.adjustedHistory. apply length_fmap. Qed.


(** On points whose numbers are finite the two models of the updater
    agree. *)
Lemma widen_shiftPoint (d : Q) (p : MarketDataPoint) :
  Wide.shiftPoint (Wide.Num d) (widen p) = widen (shiftPoint d p).
Proof. reflexivity. Qed.

Lemma widen_liveUpdater (dataPoint : MarketDataPoint) (prev : list MarketDataPoint) :
  Wide.liveUpdater (widen dataPoint) (widen <$> prev)
  = JS.bind (liveUpdater dataPoint prev)
      (fun newData => JS.Ok (widen <$> newData)).
Proof.
  unfold Wide.liveUpdater, liveUpdater, JS.last_elem. rewrite fmap_last.
  destruct (last prev) as [lastSimulated|]; [|done]. simpl. f_equal.
  rewrite fmap_app, fmap_drop. do 2 f_equal.
  unfold Wide.adjustedHistory, adjustedHistory.
  rewrite <- !list_fmap_compose. by apply list_fmap_ext.
Qed.

Lemma wide_add_nan (x : Wide.number) : Wide.add x Wide.NaN = Wide.NaN.
Proof. by destruct x. Qed.




(** The same example evaluated: the rewritten history is 149, 151, 150; the
    oldest point (149) is evicted and 150 appended. *)
Example reconcile_example :
  JS.bind (liveUpdater (samplePoint 4 150) sampleHistory)
    (fun newData : list MarketDataPoint =>
       JS.Ok (Qred <$> (spotPrice <$> newData)))
  = JS.Ok [151%Q; 150%Q; 150%Q].
Proof. reflexivity. Qed.

(** C9.  The history adjustment touches the two prices only: every point of
    the adjusted history, and hence every point of the stored series that
    survives the refresh, keeps the open interest, the volume, the timestamp
    and the time label it had. *)
Theorem reconciliation_frame
    (prev newData : list MarketDataPoint) (lastSimulated dataPoint : MarketDataPoint) :
  last prev = Some lastSimulated ->
  liveUpdater dataPoint prev = JS.Ok newData ->
  (forall (priceDiff : Q) (i : nat) (p : MarketDataPoint),
     prev !! i = Some p ->
     exists p', adjustedHistory priceDiff prev !! i = Some p' /\
       openInterest p' = openInterest p /\ volume p' = volume p /\
       timestamp p' = timestamp p /\ timeLabel p' = timeLabel p) /\
  (forall (i : nat) (p' : MarketDataPoint),
     (S i < length newData)%nat -> newData !! i = Some p' ->
     exists p, prev !! S i = Some p /\
       openInterest p' = openInterest p /\ volume p' = volume p /\
       timestamp p' = timestamp p /\ timeLabel p' = timeLabel p).
Proof.
  intros Hlast Hupd. split.
  - intros priceDiff i p Hp. exists (shiftPoint priceDiff p).
    unfold adjustedHistory. rewrite list_lookup_fmap, Hp. done.
  - intros i p' Hi Hp'.
    destruct (liveUpdater_lookup _ _ _ _ i Hlast Hupd Hi) as [_ Hlk].
    rewrite Hlk in Hp'. destruct (prev !! S i) as [p|]; [|done].
    simpl in Hp'. injection Hp' as <-. by exists p.
Qed.

Lemma reconciliation_frame_witness :
  last sampleHistory = Some (samplePoint 3 101) /\
  liveUpdater (samplePoint 4 150) sampleHistory = JS.Ok sampleReconciled /\
  forall (i : nat) (p' : MarketDataPoint),
    (S i < length sampleReconciled)%nat -> sampleReconciled !! i = Some p' ->
    exists p, sampleHistory !! S i = Some p /\
      openInterest p' = openInterest p /\ volume p' = volume p /\
      timestamp p' = timestamp p /\ timeLabel p' = timeLabel p.
Proof.
  split; [reflexivity|]. split; [reflexivity|].
  apply (proj2 (reconciliation_frame sampleHistory sampleReconciled
                  (samplePoint 3 101) (samplePoint 4 150) eq_refl eq_refl)).
Defined.

(** ** The simulation loop: append with eviction *)

Lemma fetchLatestDataPoint_ok `{Host} (prev : list MarketDataPoint)
    (d : Draws) (now labelNow : Z) :
  (0 < length prev)%nat ->
  exists point, fetchLatestDataPoint prev d now labelNow = JS.Ok point.
Proof.
  intros Hlen. destruct (length_pos_last prev Hlen) as [lastPoint Hlast].
  unfold fetchLatestDataPoint. rewrite (last_elem_Some _ _ Hlast). by eexists.
Qed.

(** One tick: the first point is dropped and the generated one appended,
    whatever the length. *)
Lemma simulationUpdater_evicts `{Host} (prev : list MarketDataPoint)
    (d : Draws) (now labelNow : Z) (point : MarketDataPoint) :
  fetchLatestDataPoint prev d now labelNow = JS.Ok point ->
  simulationUpdater d now labelNow prev = JS.Ok (drop 1 prev ++ [point]).
Proof. intros Hp. unfold simulationUpdater. by rewrite Hp. Qed.

Lemma drop_evict_append {A} (n : nat) (l g : list A) (x : A) :
  (0 < length l)%nat ->
  drop n ((drop 1 l ++ [x]) ++ g) = drop (S n) (l ++ x :: g).
Proof.
  destruct l as [|a l]; simpl; [lia|]. intros _.
  by rewrite drop_0, <- app_assoc.
Qed.

Lemma simulate_arrivals `{Host} (ticks : list (Draws * Z * Z)) :
  forall prev : list MarketDataPoint,
    (0 < length prev)%nat ->
    simulate prev ticks =
      JS.Ok (drop (length ticks) (prev ++ arrivals prev ticks)) /\
    length (arrivals prev ticks) = length ticks.
Proof.
  induction ticks as [|[[d now] labelNow] ticks IH]; intros prev Hlen.
  - simpl. by rewrite app_nil_r.
  - destruct (fetchLatestDataPoint_ok prev d now labelNow Hlen) as [point Hp].
    cbn [simulate arrivals]. rewrite (simulationUpdater_evicts _ _ _ _ _ Hp), Hp.
    destruct (IH (drop 1 prev ++ [point])) as [Hs Hl].
    { by rewrite evict_append_length. }
    rewrite Hs, drop_evict_append by done. simpl. by rewrite Hl.
Qed.

(** The window of the simulation loop on any non-empty series: an append
    evicts the oldest point, so the length is kept; after the ticks the
    series is the tail of the original series followed by the generated
    points, and once there have been at least [length prev] ticks it is
    exactly the last [length prev] generated points, in arrival order. *)
Lemma simulation_window `{Host} (prev : list MarketDataPoint)
    (ticks : list (Draws * Z * Z)) :
  (0 < length prev)%nat ->
  exists final,
    simulate prev ticks = JS.Ok final /\
    length (arrivals prev ticks) = length ticks /\
    length final = length prev /\
    final = drop (length ticks) (prev ++ arrivals prev ticks) /\
    ((length prev <= length ticks)%nat ->
     final = drop (length ticks - length prev) (arrivals prev ticks)).
Proof.
  intros Hlen. destruct (simulate_arrivals ticks prev Hlen) as [Hs Hl].
  eexists. split; [exact Hs|]. split; [exact Hl|].
  split; [rewrite length_drop, length_app, Hl; lia|].
  split; [done|]. intros Hge.
  rewrite drop_app_ge by lia. done.
Qed.

(** A tick of the simulation interval replaces the stored series by the
    result of the updater. *)
Lemma simulation_tick_data `{Host} (st : AppState) (d : Draws)
    (now labelNow : Z) (u : Q) (r : nat -> Q) :
  simulationRunning st = true ->
  exists st' point,
    step st (SimulationTick d now labelNow u r) = JS.Ok st' /\
    fetchLatestDataPoint (data st) d now labelNow = JS.Ok point /\
    data st' = drop 1 (data st) ++ [point] /\
    simulationRunning st' = true.
Proof.
  intros Hrun. unfold simulationRunning in Hrun.
  destruct (dataMode st) eqn:Hmode; [|done].
  apply Nat.ltb_lt in Hrun.
  destruct (fetchLatestDataPoint_ok (data st) d now labelNow Hrun) as [point Hp].
  assert (Hrun' : simulationRunning st = true).
  { unfold simulationRunning. rewrite Hmode. by apply Nat.ltb_lt. }
  unfold step. rewrite Hrun', (simulationUpdater_evicts _ _ _ _ _ Hp).
  eexists _, point. split; [reflexivity|]. split; [done|].
  assert (Hlen : (0 <? length (drop 1 (data st) ++ [point]))%nat = true).
  { apply Nat.ltb_lt. by rewrite evict_append_length. }
  destruct (Qgtb u (7 # 10)); unfold simulationRunning; simpl;
    by rewrite Hmode, Hlen.
Qed.

(** ** The bootstrap series *)

Lemma historyLoop_S (count : nat) (labels : list string) (clock : nat -> Z)
    (rnd : nat -> Draws) (st : SimState) (n : nat) :
  historyLoop count labels clock rnd st (S n) =
  historyStep count labels clock rnd (historyLoop count labels clock rnd st n) n.
Proof. unfold historyLoop. by rewrite seq_S, foldl_app. Qed.

Lemma historyLoop_spec (count : nat) (labels : list string) (clock : nat -> Z)
    (rnd : nat -> Draws) (st : SimState) (n : nat) :
  historyLoop count labels clock rnd st n =
  ({| lastSpot := spotAfter st rnd n;
      lastFuture := futureAfter st rnd n;
      lastOI := oiAfter st rnd n |},
   historyPoint count labels clock rnd st <$> seq 0 n).
Proof.
  induction n as [|n IH].
  - by destruct st.
  - rewrite historyLoop_S, IH, seq_S, fmap_app. reflexivity.
Qed.

Lemma generateHistoricalData_lookup `{Host} (st : SimState) (count : nat)
    (labelNow : Z) (clock : nat -> Z) (rnd : nat -> Draws)
    (i : nat) (p : MarketDataPoint) :
  snd (generateHistoricalData st count labelNow clock rnd) !! i = Some p ->
  (i < count)%nat /\
  p = historyPoint count (generateTimeLabels labelNow count) clock rnd st i.
Proof.
  unfold generateHistoricalData. rewrite historyLoop_spec. simpl.
  rewrite list_lookup_fmap. intros Hp.
  destruct (seq 0 count !! i) as [k|] eqn:Hk; [|done].
  apply lookup_seq in Hk as [-> Hlt]. simpl in Hp. by injection Hp as <-.
Qed.

Lemma generateHistoricalData_length `{Host} (st : SimState) (count : nat)
    (labelNow : Z) (clock : nat -> Z) (rnd : nat -> Draws) :
  length (snd (generateHistoricalData st count labelNow clock rnd)) = count.
Proof.
  unfold generateHistoricalData. rewrite historyLoop_spec. simpl.
  by rewrite length_fmap, length_seq.
Qed.

(** The series that the component holds after mounting has 50 points. *)
Lemma mount_series_length `{Host} (labelNow : Z) (clock : nat -> Z)
    (rnd : nat -> Draws) (r : nat -> Q) :
  length (data (mount labelNow clock rnd r)) = 50%nat.
Proof. exact (generateHistoricalData_length initialSim 50 labelNow clock rnd). Qed.

(** Each step moves the spot price by at most 2.5. *)
(** ** The series of the mounted component *)

Lemma step_keeps_series `{Host} (st : AppState) (ev : Event) :
  (0 < length (data st))%nat ->
  exists st', step st ev = JS.Ok st' /\ length (data st') = length (data st).
Proof.
  intros Hlen. destruct ev as [d now labelNow u r| | |i remote now labelNow| | | |s|s];
    unfold step.
  - destruct (simulationRunning st); [|by eexists].
    destruct (fetchLatestDataPoint_ok (data st) d now labelNow Hlen) as [pt Hp].
    rewrite (simulationUpdater_evicts _ _ _ _ _ Hp). eexists. split; [reflexivity|].
    destruct (Qgtb u (7 # 10)); simpl; by rewrite evict_append_length.
  - eexists. split; [reflexivity|]. by destruct (autoUpdateRunning st).
  - eexists. split; [reflexivity|]. by destruct (autoUpdateRunning st).
  - destruct (inFlight st !! i) as [[key q|arg srcs key q|arg key q]|];
      [| | |by eexists]; unfold resume.
    + unfold afterFetch.
      destruct (fetchRealTimeMarketData key remote now labelNow) as [res|e];
        [|by eexists].
      cbn [data setInFlight].
      destruct (length_pos_last (data st) Hlen) as [lastSimulated Hlast].
      rewrite (liveUpdater_eq _ _ _ Hlast). eexists. split; [reflexivity|].
      destruct (0 <? length (optionSeries res))%nat; simpl;
        by rewrite evict_append_length, adjustedHistory_length
          by by rewrite adjustedHistory_length.
    + eexists. split; [reflexivity|].
      by destruct (analyzeMarketData arg srcs key q remote).
    + eexists. split; [reflexivity|].
      by destruct (analyzeMarketData arg [] key q remote).
  - eexists. split; [reflexivity|].
    unfold handleManualRefresh. by destruct (refreshDisabled st), (dataMode st).
  - eexists. split; [reflexivity|]. unfold toggleMode. by destruct (dataMode st).
  - eexists. split; [reflexivity|]. by destruct (dataMode st).
  - eexists. split; [reflexivity|]. by destruct (String.eqb s (apiKey st)).
  - eexists. split; [reflexivity|]. by destruct (String.eqb s (userQuestion st)).
Qed.

Lemma run_keeps_series `{Host} (evs : list Event) :
  forall st : AppState,
    (0 < length (data st))%nat ->
    exists st', run st evs = JS.Ok st' /\ length (data st') = length (data st).
Proof.
  induction evs as [|ev evs IH]; intros st Hlen; [by eexists|].
  destruct (step_keeps_series st ev Hlen) as (st1 & Hs & Hl).
  destruct (IH st1) as (st' & Hr & Hl'); [lia|].
  exists st'. cbn [run]. rewrite Hs. split; [done | lia].
Qed.

Lemma run_app `{Host} (evs evs' : list Event) :
  forall st : AppState,
    run st (evs ++ evs') = JS.bind (run st evs) (fun st1 => run st1 evs').
Proof.
  induction evs as [|ev evs IH]; intros st; [done|].
  cbn [app run]. destruct (step st ev) as [st1|e]; [apply IH | done].
Qed.

Lemma reachable_step `{Host} (st st' : AppState) (ev : Event) :
  reachable st -> step st ev = JS.Ok st' -> reachable st'.
Proof.
  intros (labelNow & clock & rnd & r & evs & Hr) Hs.
  exists labelNow, clock, rnd, r, (evs ++ [ev]).
  rewrite run_app, Hr. cbn [JS.bind run]. by rewrite Hs.
Qed.

(** The mounted component always holds exactly 50 points. *)
Lemma reachable_series_length `{Host} (st : AppState) :
  reachable st -> length (data st) = 50%nat.
Proof.
  intros (labelNow & clock & rnd & r & evs & Hr).
  pose proof (mount_series_length labelNow clock rnd r) as Hm.
  destruct (run_keeps_series evs (mount labelNow clock rnd r)) as (st' & Hr' & Hl);
    [lia|].
  rewrite Hr in Hr'. injection Hr' as <-. lia.
Qed.

(** C4.  The component mounts with a series of N = 50 points and every
    state it reaches holds 50 points, so the series is always at capacity.
    There, an append of the simulation loop is the append of the
    specification at capacity 50: the oldest point is evicted, the generated
    point is put at the end and the length stays 50; a tick of the
    simulation interval stores exactly that series.  Consequently, after any
    sequence of appends the series has 50 points, which are the tail of the
    former series followed by the generated points, and once there have
    been at least 50 appends it is exactly the last 50 generated points, in
    arrival order. *)
Theorem simulation_append_at_capacity `{Host} (st : AppState)
    (ticks : list (Draws * Z * Z)) :
  reachable st ->
  length (data st) = 50%nat /\
  (forall (d : Draws) (now labelNow : Z),
     exists point,
       fetchLatestDataPoint (data st) d now labelNow = JS.Ok point /\
       simulationUpdater d now labelNow (data st)
       = JS.Ok (appendWithCapacity 50 point (data st)) /\
       appendWithCapacity 50 point (data st) = drop 1 (data st) ++ [point] /\
       length (appendWithCapacity 50 point (data st)) = 50%nat /\
       forall (u : Q) (r : nat -> Q),
         dataMode st = SIMULATION ->
         exists st',
           step st (SimulationTick d now labelNow u r) = JS.Ok st' /\
           data st' = appendWithCapacity 50 point (data st) /\
           reachable st') /\
  exists final,
    simulate (data st) ticks = JS.Ok final /\
    length (arrivals (data st) ticks) = length ticks /\
    length final = 50%nat /\
    final = drop (length ticks) (data st ++ arrivals (data st) ticks) /\
    ((50 <= length ticks)%nat ->
     final = drop (length ticks - 50) (arrivals (data st) ticks)).
Proof.
  intros Hreach. pose proof (reachable_series_length st Hreach) as Hlen.
  split; [done|]. split.
  - intros d now labelNow.
    destruct (fetchLatestDataPoint_ok (data st) d now labelNow) as [point Hp];
      [lia|].
    assert (Happ : appendWithCapacity 50 point (data st)
                   = drop 1 (data st) ++ [point]).
    { unfold appendWithCapacity. by rewrite Hlen. }
    exists point. split; [done|].
    split; [rewrite Happ; by apply simulationUpdater_evicts|].
    split; [done|].
    split; [rewrite Happ, evict_append_length; lia|].
    intros u r Hmode.
    assert (Hrun : simulationRunning st = true).
    { unfold simulationRunning. rewrite Hmode. apply Nat.ltb_lt. lia. }
    destruct (simulation_tick_data st d now labelNow u r Hrun)
      as (st' & point' & Hs & Hp' & Hd & _).
    rewrite Hp in Hp'. injection Hp' as <-.
    exists st'. split; [done|]. split; [by rewrite Happ|].
    exact (reachable_step st st' _ Hreach Hs).
  - destruct (simulation_window (data st) ticks) as (final & Hs & Hl & Hf & Hd & Hk);
      [lia|].
    rewrite Hlen in Hf, Hk. by exists final.
Qed.

Lemma simulation_append_at_capacity_witness :
  @reachable sampleHost sampleMounted /\
  length (data sampleMounted) = 50%nat /\
  exists final,
    @simulate sampleHost (data sampleMounted) sampleTicks = JS.Ok final /\
    length final = 50%nat /\
    final = drop (length sampleTicks)
              (data sampleMounted
               ++ @arrivals sampleHost (data sampleMounted) sampleTicks).
Proof.
  assert (Hreach : @reachable sampleHost sampleMounted).
  { exists sampleNow, (fun _ => sampleNow), (fun _ => sampleDraws),
      (fun _ => (1 # 2)%Q), []. reflexivity. }
  split; [exact Hreach|].
  destruct (@simulation_append_at_capacity sampleHost sampleMounted sampleTicks
              Hreach) as (Hlen & _ & final & Hs & _ & Hf & Hd & _).
  split; [exact Hlen|]. exists final. split; [exact Hs|]. split; [exact Hf|].
  exact Hd.
Defined.

Lemma historyChange_bound (d : Draws) :
  (0 <= u_change d < 1)%Q ->
  (- (5 # 2) <= historyChange d <= 5 # 2)%Q.
Proof. unfold historyChange. intros [? ?]. split; lra. Qed.

Lemma inject_nat_S (n : nat) :
  (inject_Z (Z.of_nat (S n)) == inject_Z (Z.of_nat n) + 1)%Q.
Proof. rewrite Nat2Z.inj_succ. unfold Z.succ. by rewrite inject_Z_plus. Qed.

Lemma spotAfter_bound (st : SimState) (rnd : nat -> Draws) (n : nat) :
  (forall i : nat, (0 <= u_change (rnd i) < 1)%Q) ->
  (lastSpot st - (5 # 2) * inject_Z (Z.of_nat n) <= spotAfter st rnd n
   <= lastSpot st + (5 # 2) * inject_Z (Z.of_nat n))%Q.
Proof.
  intros Hd. induction n as [|n [IHl IHu]].
  - change (inject_Z (Z.of_nat 0)) with 0%Q. cbn [spotAfter]. split; lra.
  - cbn [spotAfter]. rewrite inject_nat_S.
    destruct (historyChange_bound (rnd n) (Hd n)). split; lra.
Qed.

Lemma toFixed2_between (x lo hi : Q) :
  (lo <= x <= hi)%Q ->
  (lo - (1 # 200) <= JS.toFixed2 x <= hi + (1 # 200))%Q.
Proof.
  intros [Hl Hu]. pose proof (toFixed2_error x) as He.
  apply Qabs_Qle_condition in He as [? ?]. split; lra.
Qed.

(** C7 (amended).  On the freshly loaded module, [generateHistoricalData(count)]
    returns [count] points, seeded from spot price 2350 and open interest
    450000: point [i] carries the rounded running sums after [i + 1] steps,
    and its spot price is within [2.5 * (i + 1)] (plus the rounding) of 2350.
    Point [i] has timestamp [Date.now() - (count - i) * 900000]: consecutive
    timestamps are 15 minutes plus the advance of the clock between the two
    iterations apart (exactly 15 minutes when the readings agree, and
    strictly increasing as long as the clock does not go back), and the
    last timestamp is 15 minutes before the last clock reading, not at it.
    For [count = 5] the final spot price lies in [2325, 2375]. *)
Theorem bootstrap_series `{Host} (count : nat) (labelNow : Z)
    (clock : nat -> Z) (rnd : nat -> Draws) :
  (forall i : nat, (0 <= u_change (rnd i) < 1)%Q) ->
  let data := snd (generateHistoricalData initialSim count labelNow clock rnd) in
  length data = count /\
  (spotAfter initialSim rnd 0 = 2350%Q /\ oiAfter initialSim rnd 0 = 450000%Q) /\
  (forall (i : nat) (p : MarketDataPoint), data !! i = Some p ->
     timestamp p = clock i - (Z.of_nat count - Z.of_nat i) * 900000 /\
     spotPrice p = JS.toFixed2 (spotAfter initialSim rnd (S i)) /\
     openInterest p = inject_Z (JS.Math_floor (oiAfter initialSim rnd (S i))) /\
     (Qabs (spotPrice p - 2350)
      <= (5 # 2) * inject_Z (Z.of_nat (S i)) + (1 # 200))%Q) /\
  (forall (i : nat) (p q : MarketDataPoint),
     data !! i = Some p -> data !! S i = Some q ->
     timestamp q - timestamp p = 900000 + (clock (S i) - clock i) /\
     (clock i <= clock (S i) -> timestamp p < timestamp q)) /\
  (forall p : MarketDataPoint, last data = Some p ->
     timestamp p = clock (count - 1)%nat - 900000) /\
  (count = 5%nat -> forall p : MarketDataPoint, last data = Some p ->
     (2325 <= spotPrice p <= 2375)%Q).
Proof.
  intros Hd data.
  assert (Hlen : length data = count) by apply generateHistoricalData_length.
  assert (Hpt : forall (i : nat) (p : MarketDataPoint), data !! i = Some p ->
            (i < count)%nat /\
            timestamp p = clock i - (Z.of_nat count - Z.of_nat i) * 900000 /\
            spotPrice p = JS.toFixed2 (spotAfter initialSim rnd (S i))).
  { intros i p Hp. apply generateHistoricalData_lookup in Hp as [Hi ->]. done. }
  assert (Hband : forall n : nat,
            (2350 - (5 # 2) * inject_Z (Z.of_nat n) - (1 # 200)
             <= JS.toFixed2 (spotAfter initialSim rnd n)
             <= 2350 + (5 # 2) * inject_Z (Z.of_nat n) + (1 # 200))%Q).
  { intros n. pose proof (spotAfter_bound initialSim rnd n Hd) as Hb.
    apply toFixed2_between in Hb. exact Hb. }
  split; [exact Hlen|]. split; [done|]. split; [|split; [|split]].
  - intros i p Hp. pose proof Hp as Hp'.
    apply generateHistoricalData_lookup in Hp' as [Hi ->].
    split; [done|]. split; [done|]. split; [done|].
    cbn [spotPrice historyPoint]. destruct (Hband (S i)) as [Hl Hu].
    apply Qabs_Qle_condition.
    split; lra.
  - intros i p q Hp Hq.
    destruct (Hpt _ _ Hp) as (_ & -> & _). destruct (Hpt _ _ Hq) as (_ & -> & _).
    split; lia.
  - intros p Hp. rewrite last_lookup, Hlen in Hp.
    destruct (Hpt _ _ Hp) as (Hi & -> & _).
    replace (Nat.pred count) with (count - 1)%nat in * by lia. lia.
  - intros -> p Hp. rewrite last_lookup, Hlen in Hp.
    change (Nat.pred 5) with 4%nat in Hp.
    destruct (Hpt _ _ Hp) as (_ & _ & ->).
    destruct (Hband 5%nat) as [Hl Hu].
    change (inject_Z (Z.of_nat 5)) with 5%Q in Hl, Hu. split; lra.
Qed.

Lemma bootstrap_series_witness :
  (forall i : nat, (0 <= u_change sampleDraws < 1)%Q) /\
  let data := snd (@generateHistoricalData sampleHost initialSim 5 sampleNow
                     (fun _ => sampleNow) (fun _ => sampleDraws)) in
  length data = 5%nat /\
  (forall p : MarketDataPoint, last data = Some p ->
     timestamp p = sampleNow - 900000) /\
  (forall p : MarketDataPoint, last data = Some p ->
     (2325 <= spotPrice p <= 2375)%Q).
Proof.
  assert (Hd : forall i : nat, (0 <= u_change sampleDraws < 1)%Q).
  { intros _. simpl. split; lra. }
  split; [exact Hd|].
  destruct (@bootstrap_series sampleHost 5 sampleNow (fun _ => sampleNow)
              (fun _ => sampleDraws) Hd) as (Hl & _ & _ & _ & Hlast & Hfin).
  split; [exact Hl|]. split; [exact Hlast | exact (Hfin eq_refl)].
Defined.

(** C7 (as stated) fails: the series does not end at "now"; the last of the
    five points is stamped 15 minutes before the clock reading. *)
Lemma bootstrap_ends_before_now :
  exists p : MarketDataPoint,
    last (snd (@generateHistoricalData sampleHost initialSim 5 sampleNow
                 (fun _ => sampleNow) (fun _ => sampleDraws))) = Some p /\
    timestamp p = sampleNow - 900000 /\
    timestamp p <> sampleNow.
Proof. eexists. split; [reflexivity|]. split; [reflexivity|]. by vm_compute. Qed.

(** The module state is not reset between calls: a second call starts from
    where the first one stopped. *)
Lemma bootstrap_second_call `{Host} (count count' : nat) (labelNow labelNow' : Z)
    (clock clock' : nat -> Z) (rnd rnd' : nat -> Draws) :
  lastSpot (fst (generateHistoricalData
                   (fst (generateHistoricalData initialSim count labelNow clock rnd))
                   count' labelNow' clock' rnd'))
  = spotAfter (mkSim (spotAfter initialSim rnd count)
                     (futureAfter initialSim rnd count)
                     (oiAfter initialSim rnd count)) rnd' count'.
Proof. unfold generateHistoricalData. by rewrite !historyLoop_spec. Qed.

(** ** Open interest against the price delta *)

Lemma Qgtb_true (x y : Q) : Qgtb x y = true <-> (y < x)%Q.
Proof.
  unfold Qgtb. rewrite negb_true_iff, <- not_true_iff_false, Qle_bool_iff.
  split; [apply Qnot_le_lt | apply Qlt_not_le].
Qed.

Lemma Qltb_true (x y : Q) : Qltb x y = true <-> (x < y)%Q.
Proof. unfold Qltb. apply (Qgtb_true y x). Qed.

(** The correlation term of the bootstrap loop. *)
Lemma oiBias_cases (change : Q) :
  ((1 < change)%Q /\ oiBias change = 500%Q) \/
  ((change < -1)%Q /\ oiBias change = (-500)%Q) \/
  ((-1 <= change <= 1)%Q /\ oiBias change = 0%Q).
Proof.
  unfold oiBias.
  destruct (Qgtb change 1) eqn:Hup.
  { left. by apply Qgtb_true in Hup. }
  destruct (Qltb change (-1)) eqn:Hdown.
  { right; left. by apply Qltb_true in Hdown. }
  right; right. split; [|done]. split.
  - apply Qnot_lt_le. intros Hc. apply Qltb_true in Hc. congruence.
  - apply Qnot_lt_le. intros Hc. apply Qgtb_true in Hc. congruence.
Qed.

(** In the bootstrap loop the open-interest change follows the price delta:
    a delta above 1 makes it non-negative, a delta below -1 makes it
    negative, and a delta in between leaves it centred on zero. *)
Lemma history_oi_follows_price (d : Draws) :
  (0 <= u_oi d < 1)%Q ->
  ((1 < historyChange d)%Q -> (0 <= historyOiChange d < 1000)%Q) /\
  ((historyChange d < -1)%Q -> (-1000 <= historyOiChange d < 0)%Q) /\
  ((-1 <= historyChange d <= 1)%Q -> (-500 <= historyOiChange d < 500)%Q).
Proof.
  intros [Hl Hu]. unfold historyOiChange.
  destruct (oiBias_cases (historyChange d)) as [[Hc ->]|[[Hc ->]|[[Hc1 Hc2] ->]]];
    repeat split; intros; lra.
Qed.

(** C8 (the per-tick generator).  In [fetchLatestDataPoint] the
    open-interest change does not depend on the price delta at all: two
    ticks that differ only in the draw of the delta yield the same open
    interest.  With the same open-interest draw, a rally of +1.35 and a
    sell-off of -1.35 both move the open interest by -250. *)
Theorem tick_oi_ignores_price_delta `{Host} (prev : list MarketDataPoint)
    (c c' p o v : Q) (now labelNow : Z) :
  tickOiChange (mkDraws c p o v) = tickOiChange (mkDraws c' p o v) /\
  JS.bind (fetchLatestDataPoint prev (mkDraws c p o v) now labelNow)
    (fun point => JS.Ok (openInterest point))
  = JS.bind (fetchLatestDataPoint prev (mkDraws c' p o v) now labelNow)
      (fun point => JS.Ok (openInterest point)) /\
  (1 < tickChange rallyDraws)%Q /\ (tickChange selloffDraws < -1)%Q /\
  Qred (tickOiChange rallyDraws) = (-250)%Q /\
  Qred (tickOiChange selloffDraws) = (-250)%Q.
Proof.
  split; [reflexivity|]. split.
  - unfold fetchLatestDataPoint. by destruct (JS.last_elem prev).
  - by vm_compute.
Qed.

(** The same on a series: after the rally tick the open interest has
    fallen from 450000 to 449750, exactly as after the sell-off tick. *)
Example tick_oi_example :
  JS.bind (@fetchLatestDataPoint sampleHost sampleHistory rallyDraws 10 10)
    (fun point => JS.Ok (Qred (spotPrice point), Qred (openInterest point)))
  = JS.Ok ((2047 # 20)%Q, 449750%Q) /\
  JS.bind (@fetchLatestDataPoint sampleHost sampleHistory selloffDraws 10 10)
    (fun point => JS.Ok (Qred (spotPrice point), Qred (openInterest point)))
  = JS.Ok ((1993 # 20)%Q, 449750%Q).
Proof. split; reflexivity. Qed.

(** ** The analysis adapter *)

Lemma getAI_missing `{Host} :
  process_env_API_KEY = None ->
  getAI "" = JS.Throw (JS.Error missingKeyMessage).
Proof. unfold getAI. simpl. by intros ->. Qed.

Lemma getAI_given `{Host} (apiKey : string) :
  JS.truthy apiKey = true -> getAI apiKey = JS.Ok apiKey.
Proof. intros Ht. unfold getAI. rewrite Ht. cbv beta iota. by rewrite Ht. Qed.

(** With a client and a non-empty series the call always returns a result:
    whatever goes wrong inside the [try] yields the neutral fallback, with
    the basis of the latest point. *)
Lemma analyzeMarketData_inside_try `{Host} (data : list MarketDataPoint)
    (latest : MarketDataPoint) (sources : list Source)
    (apiKey k userPrompt : string) (remote : Remote) :
  getAI apiKey = JS.Ok k ->
  last data = Some latest ->
  exists res,
    analyzeMarketData data sources apiKey userPrompt remote = JS.Ok res /\
    (forall e, analysisAttempt sources remote = JS.Throw e ->
       res = fallbackAnalysis (futurePrice latest - spotPrice latest)%Q /\
       sentiment res = NEUTRAL /\ confidence res = 0%Q /\
       basis res = (futurePrice latest - spotPrice latest)%Q) /\
    (forall a, analysisAttempt sources remote = JS.Ok a ->
       res = a /\ sourceUrls res = sources).
Proof.
  intros Hk Hl. unfold analyzeMarketData.
  rewrite Hk, (last_elem_Some _ _ Hl).
  destruct (analysisAttempt sources remote) as [a|e] eqn:Ha.
  - exists a. split; [done|]. split; [done|]. intros a' [= <-]. split; [done|].
    unfold analysisAttempt in Ha. destruct remote as [response|]; [|done].
    destruct (JS.truthy _); [|done].
    destruct (parseAnalysis _); [|done]. by injection Ha as <-.
  - eexists. split; [done|]. split; [|done]. by intros e' _.
Qed.

(** A rejected remote call, an empty text and a text that does not parse
    all end in the [catch]. *)
Lemma analysisAttempt_failures `{Host} (sources : list Source) :
  (forall e, analysisAttempt sources (JS.Throw e) = JS.Throw e) /\
  (forall chunks,
     analysisAttempt sources (JS.Ok (mkResponse None chunks))
     = JS.Throw (JS.Error "Empty response from AI")) /\
  (forall chunks,
     analysisAttempt sources (JS.Ok (mkResponse (Some "") chunks))
     = JS.Throw (JS.Error "Empty response from AI")) /\
  (forall t chunks, JS.truthy t = true -> parseAnalysis t = None ->
     analysisAttempt sources (JS.Ok (mkResponse (Some t) chunks))
     = JS.Throw JS.SyntaxError).
Proof.
  repeat split; try done.
  intros t chunks Ht Hp. unfold analysisAttempt, orElse. cbn [text].
  rewrite Ht. cbv beta iota. by rewrite Ht, Hp.
Qed.

(** Without a client the call throws what [getAI] throws. *)
Lemma analyze_throws_without_client `{Host} (data : list MarketDataPoint)
    (sources : list Source) (apiKey userPrompt : string) (remote : Remote)
    (e : JS.exn) :
  getAI apiKey = JS.Throw e ->
  analyzeMarketData data sources apiKey userPrompt remote = JS.Throw e.
Proof. intros Hk. unfold analyzeMarketData. by rewrite Hk. Qed.

(** C5 (the missing credential).  [getAI] is called before the [try]: with
    no key typed in and none in the environment, [analyzeMarketData] throws
    "API Key is missing..." to its caller, for every series, citation list,
    prompt and remote outcome, instead of returning the fallback. *)
Theorem analyze_throws_without_key (data : list MarketDataPoint)
    (sources : list Source) (userPrompt : string) (remote : Remote) :
  @analyzeMarketData sampleHost data sources "" userPrompt remote
  = JS.Throw (JS.Error missingKeyMessage).
Proof. reflexivity. Qed.

(** The reads of [latest] also come before the [try]: on an empty series the
    call throws even with a key. *)
Lemma analyze_throws_on_empty_series `{Host} (sources : list Source)
    (apiKey k userPrompt : string) (remote : Remote) :
  getAI apiKey = JS.Ok k ->
  analyzeMarketData [] sources apiKey userPrompt remote = JS.Throw JS.TypeError.
Proof. intros Hk. unfold analyzeMarketData. by rewrite Hk. Qed.

(** ** The live refresh cycle *)

Lemma fetch_fails_without_client `{Host} (apiKey : string) (remote : Remote)
    (now labelNow : Z) (e : JS.exn) :
  getAI apiKey = JS.Throw e ->
  fetchRealTimeMarketData apiKey remote now labelNow = JS.Throw e.
Proof. intros Hk. unfold fetchRealTimeMarketData. by rewrite Hk. Qed.

Lemma fetch_fails_on_rejection `{Host} (apiKey k : string)
    (now labelNow : Z) (e : JS.exn) :
  getAI apiKey = JS.Ok k ->
  fetchRealTimeMarketData apiKey (JS.Throw e) now labelNow = JS.Throw e.
Proof. intros Hk. unfold fetchRealTimeMarketData. by rewrite Hk. Qed.

Lemma fetch_fails_without_prices `{Host} (apiKey k : string)
    (response : GenerateContentResponse) (now labelNow : Z) :
  getAI apiKey = JS.Ok k ->
  parseJsonBlock (orElse (text response) "") = None ->
  (length (extractNumbers (orElse (text response) "")) < 3)%nat ->
  fetchRealTimeMarketData apiKey (JS.Ok response) now labelNow
  = JS.Throw (JS.Error "AI could not retrieve valid price data.").
Proof.
  intros Hk Hp Hn. unfold fetchRealTimeMarketData. rewrite Hk, Hp. simpl.
  destruct (extractNumbers _) as [|n0 [|n1 [|n2 ?]]]; simpl in *; [done..|lia].
Qed.

(** Resuming a suspended fetch with a failure: only the status and the
    loading flag change. *)
Lemma settle_fetch_failure `{Host} (st : AppState) (i : nat)
    (key question : string) (remote : Remote) (now labelNow : Z) (e : JS.exn) :
  inFlight st !! i = Some (AwaitFetch key question) ->
  fetchRealTimeMarketData key remote now labelNow = JS.Throw e ->
  step st (Settle i remote now labelNow)
  = JS.Ok (setIsDataLoading false
             (setAnalysisStatus ERROR (setInFlight (delete i (inFlight st)) st))).
Proof.
  intros Hi Hf. unfold step. rewrite Hi. unfold resume, afterFetch. by rewrite Hf.
Qed.

(** C6.  A live refresh cycle whose fetch fails: from status IDLE the start
    of the cycle sets LOADING and leaves the series alone; when the failure
    arrives the step completes (nothing is thrown), the status is ERROR, and
    the series, the options and the analysis are what they were before the
    cycle; the mode and the auto-update switch are untouched, so the
    interval keeps firing. *)
Theorem fetch_failure_keeps_series `{Host} (st : AppState) (remote : Remote)
    (now labelNow : Z) (e : JS.exn) :
  analysisStatus st = IDLE ->
  fetchRealTimeMarketData (apiKey st) remote now labelNow = JS.Throw e ->
  let st1 := fetchLiveValues st in
  analysisStatus st1 = LOADING /\ data st1 = data st /\
  exists st2,
    step st1 (Settle (length (inFlight st)) remote now labelNow) = JS.Ok st2 /\
    analysisStatus st2 = ERROR /\
    data st2 = data st /\ optionData st2 = optionData st /\
    analysis st2 = analysis st /\
    isDataLoading st2 = false /\ inFlight st2 = inFlight st /\
    dataMode st2 = dataMode st /\ isAutoUpdate st2 = isAutoUpdate st /\
    autoUpdateRunning st2 = autoUpdateRunning st.
Proof.
  intros _ Hf st1. split; [done|]. split; [done|].
  eexists. split.
  - apply (settle_fetch_failure st1 _ (apiKey st) (userQuestion st) _ _ _ e);
      [|done].
    unfold st1, fetchLiveValues. simpl. by rewrite list_lookup_middle.
  - unfold st1, fetchLiveValues. simpl.
    rewrite (delete_middle (inFlight st) []), app_nil_r. done.
Qed.

Lemma fetch_failure_keeps_series_witness :
  analysisStatus liveIdle = IDLE /\
  @fetchRealTimeMarketData sampleHost (apiKey liveIdle)
    (JS.Throw JS.RemoteFailure) 100 100 = JS.Throw JS.RemoteFailure /\
  analysisStatus liveBusy = LOADING /\ data liveBusy = data liveIdle /\
  exists st2,
    @step sampleHost liveBusy
      (Settle (length (inFlight liveIdle)) (JS.Throw JS.RemoteFailure) 100 100)
    = JS.Ok st2 /\
    analysisStatus st2 = ERROR /\
    data st2 = data liveIdle /\ optionData st2 = optionData liveIdle /\
    analysis st2 = analysis liveIdle /\
    isDataLoading st2 = false /\ inFlight st2 = inFlight liveIdle /\
    dataMode st2 = dataMode liveIdle /\ isAutoUpdate st2 = isAutoUpdate liveIdle /\
    autoUpdateRunning st2 = autoUpdateRunning liveIdle.
Proof.
  split; [reflexivity|]. split; [reflexivity|].
  apply (@fetch_failure_keeps_series sampleHost liveIdle
           (JS.Throw JS.RemoteFailure) 100 100 JS.RemoteFailure);
    reflexivity.
Defined.

(** ** Overlapping cycles *)

(** C2 (amended).  While auto-update runs in live mode, every tick of the
    interval starts a refresh cycle at once, whatever is already in flight:
    there is no in-flight guard, the tick is neither skipped nor queued.  It
    sets the status to LOADING, raises the loading flag and suspends one
    more fetch; the series and the analysis are not touched by the start. *)
Theorem auto_tick_always_starts_cycle `{Host} (st : AppState) :
  autoUpdateRunning st = true ->
  exists st',
    step st AutoUpdateTick = JS.Ok st' /\
    inFlight st' = inFlight st ++ [AwaitFetch (apiKey st) (userQuestion st)] /\
    length (inFlight st') = S (length (inFlight st)) /\
    analysisStatus st' = LOADING /\ isDataLoading st' = true /\
    data st' = data st /\ analysis st' = analysis st /\
    autoUpdateRunning st' = true.
Proof.
  intros Hrun. exists (fetchLiveValues st). unfold step. rewrite Hrun.
  split; [done|]. split; [done|].
  split; [simpl; rewrite length_app; simpl; lia|].
  repeat split; done.
Qed.

Lemma auto_tick_always_starts_cycle_witness :
  autoUpdateRunning liveBusy = true /\
  exists st',
    @step sampleHost liveBusy AutoUpdateTick = JS.Ok st' /\
    inFlight st' = inFlight liveBusy
                   ++ [AwaitFetch (apiKey liveBusy) (userQuestion liveBusy)] /\
    length (inFlight st') = S (length (inFlight liveBusy)) /\
    analysisStatus st' = LOADING /\ isDataLoading st' = true /\
    data st' = data liveBusy /\ analysis st' = analysis liveBusy /\
    autoUpdateRunning st' = true.
Proof.
  split; [reflexivity|].
  apply (@auto_tick_always_starts_cycle sampleHost liveBusy). reflexivity.
Defined.

(** C2 (as stated) fails.  A second tick that comes while the first tick's
    fetch is still in flight is not skipped: two cycles are in flight
    together.  When the results then arrive in the order fetch 1, fetch 2,
    analysis 2, analysis 1, the writes of the two cycles interleave: the
    series ends with the point of the second cycle, while the analysis on
    display is the one of the first cycle (its sources are those of the
    first fetch). *)
Lemma auto_ticks_overlap :
  autoUpdateRunning liveIdle = true /\
  @step sampleHost liveIdle AutoUpdateTick = JS.Ok liveBusy /\
  inFlight liveBusy = [AwaitFetch "k" ""] /\
  @step sampleHost liveBusy AutoUpdateTick = JS.Ok (fetchLiveValues liveBusy) /\
  inFlight (fetchLiveValues liveBusy) = [AwaitFetch "k" ""; AwaitFetch "k" ""] /\
  JS.bind
    (@run sampleHost (fetchLiveValues liveBusy)
       [Settle 0 (replyWith "A") 100 100; Settle 0 (replyWith "B") 200 200;
        Settle 1 (replyWith "bear") 300 300; Settle 0 (replyWith "bull") 400 400])
    (fun final => JS.Ok (observe final))
  = JS.Ok ([3; 100; 200], [160; 160; 160]%Q, LIVE_SEARCH, SUCCESS,
           Some BULLISH, Some ["A"], 0%nat).
Proof. repeat split; vm_compute; reflexivity. Qed.

(** ** A mode switch during a fetch *)

(** Resuming a suspended fetch with a result, on a non-empty series. *)
Lemma settle_fetch_success `{Host} (st : AppState) (i : nat)
    (key question : string) (remote : Remote) (now labelNow : Z)
    (res : MarketFetchResult) (newData : list MarketDataPoint) :
  inFlight st !! i = Some (AwaitFetch key question) ->
  fetchRealTimeMarketData key remote now labelNow = JS.Ok res ->
  liveUpdater (dataPoint res) (data st) = JS.Ok newData ->
  step st (Settle i remote now labelNow)
  = afterFetch key question (JS.Ok res) (setInFlight (delete i (inFlight st)) st).
Proof.
  intros Hi Hf Hu. unfold step. rewrite Hi. unfold resume. by rewrite Hf.
Qed.




(** ** Manual refresh *)

(** While the status is LOADING the refresh button is disabled: a click
    does nothing. *)
Lemma refresh_ignored_while_loading `{Host} (st : AppState) :
  analysisStatus st = LOADING -> step st ClickRefresh = JS.Ok st.
Proof. intros Hl. unfold step, refreshDisabled. by rewrite Hl. Qed.

(** C10 (amended).  When the status is not LOADING, a click on the refresh
    button starts a new call whatever is still in flight:
    [handleManualRefresh] has no in-flight guard.  In live mode it starts a
    fetch-and-analyse cycle, in simulated mode an analysis of the current
    series without a fetch; in both the status becomes LOADING and the
    series is not touched by the start. *)
Theorem manual_refresh_starts_call `{Host} (st : AppState) :
  analysisStatus st <> LOADING ->
  exists st',
    step st ClickRefresh = JS.Ok st' /\
    st' = handleManualRefresh st /\
    analysisStatus st' = LOADING /\
    data st' = data st /\
    inFlight st' =
      inFlight st ++
        [match dataMode st with
         | LIVE_SEARCH => AwaitFetch (apiKey st) (userQuestion st)
         | SIMULATION => AwaitManualAnalysis (data st) (apiKey st) (userQuestion st)
         end].
Proof.
  intros Hs. exists (handleManualRefresh st). split.
  - unfold step, refreshDisabled. by destruct (analysisStatus st).
  - unfold handleManualRefresh. by destruct (dataMode st).
Qed.

Lemma manual_refresh_starts_call_witness :
  analysisStatus switchedDuringFetch <> LOADING /\
  inFlight switchedDuringFetch = [AwaitFetch "k" ""] /\
  exists st',
    @step sampleHost switchedDuringFetch ClickRefresh = JS.Ok st' /\
    st' = handleManualRefresh switchedDuringFetch /\
    analysisStatus st' = LOADING /\
    data st' = data switchedDuringFetch /\
    inFlight st' =
      inFlight switchedDuringFetch ++
        [match dataMode switchedDuringFetch with
         | LIVE_SEARCH => AwaitFetch (apiKey switchedDuringFetch)
                            (userQuestion switchedDuringFetch)
         | SIMULATION => AwaitManualAnalysis (data switchedDuringFetch)
                           (apiKey switchedDuringFetch)
                           (userQuestion switchedDuringFetch)
         end].
Proof.
  split; [discriminate|]. split; [reflexivity|].
  apply (@manual_refresh_starts_call sampleHost switchedDuringFetch).
  discriminate.
Defined.

(** C10 (as stated) fails.  With a cycle in flight the status is LOADING and
    the button is disabled: the click starts nothing, the state is exactly
    what it was, and it stays so for as long as the fetch does not settle. *)
Lemma refresh_blocked_while_loading :
  analysisStatus liveBusy = LOADING /\
  refreshDisabled liveBusy = true /\
  @step sampleHost liveBusy ClickRefresh = JS.Ok liveBusy /\
  @run sampleHost liveBusy [ClickRefresh; ClickRefresh; ClickRefresh]
  = JS.Ok liveBusy /\
  inFlight liveBusy = [AwaitFetch "k" ""].
Proof. repeat split; reflexivity. Qed.

(** What the throw of [analyzeMarketData] does to its caller in simulated
    mode: the promise of [handleManualRefresh] rejects, the [then] callback
    never runs, the status stays LOADING and the refresh button stays
    disabled. *)
Example manual_analysis_without_key_hangs :
  JS.bind
    (@run sampleHost simulationNoKey
       [ClickRefresh; Settle 0 (replyWith "bull") 100 100; ClickRefresh])
    (fun st => JS.Ok (observe st, refreshDisabled st))
  = JS.Ok (([1; 2; 3], [100; 102; 101]%Q, SIMULATION, LOADING, None, None,
            0%nat), true).
Proof. vm_compute. reflexivity. Qed.

(** In live mode the same throw is caught by [fetchLiveValues]: the status
    becomes ERROR. *)
Lemma analysis_rejection_in_cycle (r : JS.result MarketAnalysis) (e : JS.exn)
    (st : AppState) :
  r = JS.Throw e ->
  analysisStatus (afterAnalysis r st) = ERROR /\
  data (afterAnalysis r st) = data st /\
  analysis (afterAnalysis r st) = analysis st.
Proof. by intros ->. Qed.

(** * Further properties of the code *)

(** ** The simulator *)

Lemma floor_range (x : Q) (a b : Z) :
  (inject_Z a <= x < inject_Z b)%Q -> a <= JS.Math_floor x < b.
Proof.
  intros [Hl Hu]. unfold JS.Math_floor. split.
  - rewrite <- (Qfloor_Z a). by apply Qfloor_resp_le.
  - rewrite Zlt_Qlt. eapply Qle_lt_trans; [apply Qfloor_le | exact Hu].
Qed.

Lemma generateTimeLabels_lookup `{Host} (now : Z) (count i : nat) :
  (i < count)%nat ->
  generateTimeLabels now count !! i
  = Some (toLocaleTimeString (now - (Z.of_nat count - Z.of_nat i) * 900000)).
Proof.
  intros Hi. unfold generateTimeLabels.
  rewrite list_lookup_fmap, reverse_lookup by (rewrite length_seq; lia).
  rewrite length_seq, lookup_seq_lt by lia. simpl. do 2 f_equal. lia.
Qed.

(** X1.  The labels of the bootstrap series go with its timestamps: there
    are [count] labels, and the label of point [i] is the formatted time of
    [labelNow - (count - i) * 15 min], that is, of the point's own timestamp
    shifted by the difference between the clock reading of
    [generateTimeLabels] and the one of the iteration (none when the
    readings agree). *)
Theorem bootstrap_labels_follow_timestamps `{Host} (st : SimState) (count : nat)
    (labelNow : Z) (clock : nat -> Z) (rnd : nat -> Draws)
    (i : nat) (p : MarketDataPoint) :
  snd (generateHistoricalData st count labelNow clock rnd) !! i = Some p ->
  length (generateTimeLabels labelNow count) = count /\
  timeLabel p = toLocaleTimeString (timestamp p + (labelNow - clock i)) /\
  (clock i = labelNow -> timeLabel p = toLocaleTimeString (timestamp p)).
Proof.
  intros Hp. apply generateHistoricalData_lookup in Hp as [Hi ->].
  split.
  { unfold generateTimeLabels. by rewrite length_fmap, length_reverse, length_seq. }
  cbn [timeLabel timestamp historyPoint].
  rewrite (generateTimeLabels_lookup labelNow count i Hi).
  cbn [default from_option]. unfold id.
  split; [f_equal; lia|]. intros ->. f_equal.
Qed.

Lemma bootstrap_labels_follow_timestamps_witness :
  snd (@generateHistoricalData minuteHost initialSim 5 sampleNow
         (fun _ => sampleNow) (fun _ => sampleDraws)) !! 4%nat
  = Some sampleBootstrapLast /\
  length (@generateTimeLabels minuteHost sampleNow 5) = 5%nat /\
  timeLabel sampleBootstrapLast
  = @toLocaleTimeString minuteHost
      (timestamp sampleBootstrapLast + (sampleNow - sampleNow)) /\
  (sampleNow = sampleNow ->
   timeLabel sampleBootstrapLast
   = @toLocaleTimeString minuteHost (timestamp sampleBootstrapLast)).
Proof.
  split; [reflexivity|].
  apply (@bootstrap_labels_follow_timestamps minuteHost initialSim 5 sampleNow
           (fun _ => sampleNow) (fun _ => sampleDraws) 4 sampleBootstrapLast).
  reflexivity.
Defined.

Lemma toFixed2_difference (a b lo hi : Q) :
  (lo <= a - b <= hi)%Q ->
  (lo - (1 # 100) <= JS.toFixed2 a - JS.toFixed2 b <= hi + (1 # 100))%Q.
Proof.
  intros [Hl Hu].
  pose proof (toFixed2_error a) as Ha. pose proof (toFixed2_error b) as Hb.
  apply Qabs_Qle_condition in Ha as [? ?].
  apply Qabs_Qle_condition in Hb as [? ?]. split; lra.
Qed.

(** X2.  Every point of the bootstrap series is in contango and has integer
    quantities in fixed ranges: the future price is between 11.99 and 17.01
    above the spot price, the volume is an integer from 1000 to 5999, and
    the open interest is an integer. *)
Theorem bootstrap_point_ranges `{Host} (st : SimState) (count : nat)
    (labelNow : Z) (clock : nat -> Z) (rnd : nat -> Draws)
    (i : nat) (p : MarketDataPoint) :
  (forall k : nat, unitDraws (rnd k)) ->
  snd (generateHistoricalData st count labelNow clock rnd) !! i = Some p ->
  ((1199 # 100) <= futurePrice p - spotPrice p <= (1701 # 100))%Q /\
  (exists v : Z, volume p = inject_Z v /\ 1000 <= v <= 5999) /\
  (exists oi : Z, openInterest p = inject_Z oi).
Proof.
  intros Hd Hp. apply generateHistoricalData_lookup in Hp as [Hi ->].
  destruct (Hd i) as (_ & [Hp1 Hp2] & _ & [Hv1 Hv2]).
  cbn [futurePrice spotPrice volume openInterest historyPoint futureAfter].
  split; [|split].
  - assert (Hb : (12 <= spotAfter st rnd (S i) + (12 + u_premium (rnd i) * 5)
                       - spotAfter st rnd (S i) <= 17)%Q) by (split; lra).
    apply toFixed2_difference in Hb. destruct Hb. split; lra.
  - eexists. split; [reflexivity|].
    assert (Hr : (inject_Z 1000 <= u_volume (rnd i) * 5000 + 1000 < inject_Z 6000)%Q).
    { change (inject_Z 1000) with 1000%Q. change (inject_Z 6000) with 6000%Q.
      split; lra. }
    apply floor_range in Hr. lia.
  - by eexists.
Qed.

Lemma bootstrap_point_ranges_witness :
  (forall k : nat, unitDraws sampleDraws) /\
  snd (@generateHistoricalData minuteHost initialSim 5 sampleNow
         (fun _ => sampleNow) (fun _ => sampleDraws)) !! 4%nat
  = Some sampleBootstrapLast /\
  ((1199 # 100) <= futurePrice sampleBootstrapLast - spotPrice sampleBootstrapLast
   <= (1701 # 100))%Q /\
  (exists v : Z, volume sampleBootstrapLast = inject_Z v /\ 1000 <= v <= 5999) /\
  (exists oi : Z, openInterest sampleBootstrapLast = inject_Z oi).
Proof.
  assert (Hd : forall k : nat, unitDraws sampleDraws).
  { intros _. unfold unitDraws, sampleDraws. simpl. repeat split; lra. }
  split; [exact Hd|]. split; [reflexivity|].
  apply (@bootstrap_point_ranges minuteHost initialSim 5 sampleNow
           (fun _ => sampleNow) (fun _ => sampleDraws) 4 sampleBootstrapLast Hd).
  reflexivity.
Defined.

(** X3.  One tick of the generator moves the series gently: on a series
    whose latest point has a spot price and an open interest of moderate
    magnitude, the new spot price is within 1.51 of the latest one, the
    future price is between 11.98 and 16.02 above the new spot price, the
    open interest is an integer less than 252 below and less than 251 above
    the latest one, the volume is an integer from 500 to 2500, and the
    timestamp is the clock reading.  The ranges are those of the exact
    computation widened by the room that the binary rounding of the code
    needs. *)
Theorem tick_point_ranges `{Host} (prev : list MarketDataPoint)
    (lastPoint : MarketDataPoint) (d : Draws) (now labelNow : Z) :
  unitDraws d ->
  last prev = Some lastPoint ->
  moderate (spotPrice lastPoint) -> moderate (openInterest lastPoint) ->
  exists point,
    fetchLatestDataPoint prev d now labelNow = JS.Ok point /\
    timestamp point = now /\
    (Qabs (spotPrice point - spotPrice lastPoint) <= 151 # 100)%Q /\
    ((1198 # 100) <= futurePrice point - spotPrice point <= (1602 # 100))%Q /\
    (exists oi : Z, openInterest point = inject_Z oi /\
       (openInterest lastPoint - 252 < inject_Z oi < openInterest lastPoint + 251)%Q) /\
    (exists v : Z, volume point = inject_Z v /\ 500 <= v <= 2500).
Proof.
  intros ([Hc1 Hc2] & [Hp1 Hp2] & [Ho1 Ho2] & [Hv1 Hv2]) Hlast _ _.
  unfold fetchLatestDataPoint. rewrite (last_elem_Some _ _ Hlast).
  eexists. split; [reflexivity|]. cbv zeta.
  cbn [timestamp spotPrice futurePrice openInterest volume].
  unfold tickChange, tickOiChange. split; [done|]. split; [|split; [|split]].
  - pose proof (toFixed2_error (spotPrice lastPoint + (u_change d - (1 # 2)) * 3)) as He.
    apply Qabs_Qle_condition in He as [? ?].
    apply Qabs_Qle_condition. split; lra.
  - assert (Hb : (12 <= spotPrice lastPoint + (u_change d - (1 # 2)) * 3
                        + (12 + u_premium d * 4)
                        - (spotPrice lastPoint + (u_change d - (1 # 2)) * 3) <= 16)%Q)
      by (split; lra).
    apply toFixed2_difference in Hb. destruct Hb. split; lra.
  - eexists. split; [reflexivity|]. unfold JS.Math_floor.
    pose proof (Qfloor_le (openInterest lastPoint + (u_oi d - (1 # 2)) * 500)) as Hl.
    pose proof (Qlt_floor (openInterest lastPoint + (u_oi d - (1 # 2)) * 500)) as Hu.
    rewrite inject_Z_plus in Hu. change (inject_Z 1) with 1%Q in Hu.
    set (n := inject_Z _) in *. split; lra.
  - eexists. split; [reflexivity|].
    assert (Hr : (inject_Z 500 <= u_volume d * 2000 + 500 < inject_Z 2500)%Q).
    { change (inject_Z 500) with 500%Q. change (inject_Z 2500) with 2500%Q.
      split; lra. }
    apply floor_range in Hr. lia.
Qed.

Lemma tick_point_ranges_witness :
  unitDraws rallyDraws /\
  last sampleHistory = Some (samplePoint 3 101) /\
  moderate (spotPrice (samplePoint 3 101)) /\
  moderate (openInterest (samplePoint 3 101)) /\
  exists point,
    @fetchLatestDataPoint sampleHost sampleHistory rallyDraws 10 10 = JS.Ok point /\
    timestamp point = 10 /\
    (Qabs (spotPrice point - spotPrice (samplePoint 3 101)) <= 151 # 100)%Q /\
    ((1198 # 100) <= futurePrice point - spotPrice point <= (1602 # 100))%Q /\
    (exists oi : Z, openInterest point = inject_Z oi /\
       (openInterest (samplePoint 3 101) - 252 < inject_Z oi
        < openInterest (samplePoint 3 101) + 251)%Q) /\
    (exists v : Z, volume point = inject_Z v /\ 500 <= v <= 2500).
Proof.
  assert (Hd : unitDraws rallyDraws).
  { unfold unitDraws, rallyDraws. simpl. repeat split; lra. }
  assert (Hs : moderate (spotPrice (samplePoint 3 101))) by (vm_compute; discriminate).
  assert (Ho : moderate (openInterest (samplePoint 3 101)))
    by (vm_compute; discriminate).
  split; [exact Hd|]. split; [reflexivity|]. split; [exact Hs|]. split; [exact Ho|].
  apply (@tick_point_ranges sampleHost sampleHistory (samplePoint 3 101)
           rallyDraws 10 10 Hd eq_refl Hs Ho).
Defined.

Lemma randomOI_range (r : nat -> Q) (b s : Z) (k : nat) :
  (0 <= r k < 1)%Q -> 0 < s ->
  exists v : Z, randomOI r (inject_Z b) (inject_Z s) k = inject_Z v /\ b <= v < b + s.
Proof.
  intros [Hl Hu] Hs. unfold randomOI. eexists. split; [reflexivity|].
  apply floor_range. rewrite inject_Z_plus.
  assert (Hs' : (inject_Z 0 < inject_Z s)%Q) by (by rewrite <- Zlt_Qlt).
  change (inject_Z 0) with 0%Q in Hs'.
  set (t := inject_Z s) in *. set (c := inject_Z b). split; nra.
Qed.

(** X4.  The simulated option chain always has five series (two monthly,
    one weekly, two daily) with positive integer open interest, so its
    put/call ratio is always defined; the two monthly series always have
    more calls than puts, the weekly series never has more puts than calls
    and the series expiring today never has more calls than puts. *)
Theorem simulated_options_shape (r : nat -> Q) :
  (forall k : nat, (0 <= r k < 1)%Q) ->
  type <$> generateSimulatedOptions r
  = [Some MONTHLY; Some MONTHLY; Some WEEKLY; Some DAILY; Some DAILY] /\
  (forall (i : nat) (o : OptionSeries),
     generateSimulatedOptions r !! i = Some o ->
     exists c p : Z,
       callOI o = inject_Z c /\ putOI o = inject_Z p /\ 0 < c /\ 0 < p /\
       ((i < 2)%nat -> p < c) /\ (i = 2%nat -> p <= c) /\ (i = 3%nat -> c <= p)).
Proof.
  intros Hr. split; [reflexivity|]. intros i o Ho.
  unfold generateSimulatedOptions in Ho.
  destruct i as [|[|[|[|[|i]]]]]; simpl in Ho; [..|done];
    injection Ho as <-; cbn [callOI putOI].
  - destruct (randomOI_range r 15000 2000 0 (Hr _)) as (c & Hc & ?); [lia|].
    destruct (randomOI_range r 12000 2000 1 (Hr _)) as (p & Hp & ?); [lia|].
    exists c, p. split; [exact Hc|]. split; [exact Hp|]. repeat split; lia.
  - destruct (randomOI_range r 8000 1000 2 (Hr _)) as (c & Hc & ?); [lia|].
    destruct (randomOI_range r 6000 1000 3 (Hr _)) as (p & Hp & ?); [lia|].
    exists c, p. split; [exact Hc|]. split; [exact Hp|]. repeat split; lia.
  - destruct (randomOI_range r 3000 500 4 (Hr _)) as (c & Hc & ?); [lia|].
    destruct (randomOI_range r 2500 500 5 (Hr _)) as (p & Hp & ?); [lia|].
    exists c, p. split; [exact Hc|]. split; [exact Hp|]. repeat split; lia.
  - destruct (randomOI_range r 1200 300 6 (Hr _)) as (c & Hc & ?); [lia|].
    destruct (randomOI_range r 1500 300 7 (Hr _)) as (p & Hp & ?); [lia|].
    exists c, p. split; [exact Hc|]. split; [exact Hp|]. repeat split; lia.
  - destruct (randomOI_range r 900 200 8 (Hr _)) as (c & Hc & ?); [lia|].
    destruct (randomOI_range r 800 200 9 (Hr _)) as (p & Hp & ?); [lia|].
    exists c, p. split; [exact Hc|]. split; [exact Hp|]. repeat split; lia.
Qed.

Lemma simulated_options_shape_witness :
  (forall k : nat, (0 <= (fun _ : nat => 1 # 2) k < 1)%Q) /\
  type <$> generateSimulatedOptions (fun _ => 1 # 2)
  = [Some MONTHLY; Some MONTHLY; Some WEEKLY; Some DAILY; Some DAILY] /\
  (forall (i : nat) (o : OptionSeries),
     generateSimulatedOptions (fun _ => 1 # 2) !! i = Some o ->
     exists c p : Z,
       callOI o = inject_Z c /\ putOI o = inject_Z p /\ 0 < c /\ 0 < p /\
       ((i < 2)%nat -> p < c) /\ (i = 2%nat -> p <= c) /\ (i = 3%nat -> c <= p)).
Proof.
  assert (Hr : forall k : nat, (0 <= (fun _ : nat => 1 # 2) k < 1)%Q).
  { intros _. split; lra. }
  split; [exact Hr|].
  apply (simulated_options_shape (fun _ => 1 # 2) Hr).
Defined.

Lemma spotAfter_continue (st : SimState) (rnd : nat -> Draws) (a b : nat) :
  spotAfter (mkSim (spotAfter st rnd a) (futureAfter st rnd a) (oiAfter st rnd a))
    (fun i => rnd (a + i)%nat) b
  = spotAfter st rnd (a + b).
Proof.
  induction b as [|b IH]; [by rewrite Nat.add_0_r|].
  rewrite Nat.add_succ_r. cbn [spotAfter]. by rewrite IH.
Qed.

Lemma oiAfter_continue (st : SimState) (rnd : nat -> Draws) (a b : nat) :
  oiAfter (mkSim (spotAfter st rnd a) (futureAfter st rnd a) (oiAfter st rnd a))
    (fun i => rnd (a + i)%nat) b
  = oiAfter st rnd (a + b).
Proof.
  induction b as [|b IH]; [by rewrite Nat.add_0_r|].
  rewrite Nat.add_succ_r. cbn [oiAfter]. by rewrite IH.
Qed.

Lemma futureAfter_continue (st : SimState) (rnd : nat -> Draws) (a b : nat) :
  futureAfter (mkSim (spotAfter st rnd a) (futureAfter st rnd a) (oiAfter st rnd a))
    (fun i => rnd (a + i)%nat) b
  = futureAfter st rnd (a + b).
Proof.
  destruct b as [|b]; [by rewrite Nat.add_0_r|].
  rewrite Nat.add_succ_r. cbn [futureAfter].
  by rewrite (spotAfter_continue st rnd a (S b)), Nat.add_succ_r.
Qed.

(** X5.  The random walk is not re-seeded between calls of
    [generateHistoricalData]: a call for [a] points followed by a call for
    [b] points leaves the module variables where one call for [a + b] points
    leaves them, and the prices, open interests and volumes of the second
    call are those of the last [b] points of the long call. *)
Theorem bootstrap_calls_continue_walk `{Host} (st : SimState) (a b : nat)
    (labelNow labelNow' : Z) (clock clock' : nat -> Z) (rnd : nat -> Draws) :
  let first := generateHistoricalData st a labelNow clock rnd in
  let second := generateHistoricalData (fst first) b labelNow' clock'
                  (fun i => rnd (a + i)%nat) in
  let whole := generateHistoricalData st (a + b) labelNow clock rnd in
  fst second = fst whole /\
  spotPrice <$> snd second = drop a (spotPrice <$> snd whole) /\
  futurePrice <$> snd second = drop a (futurePrice <$> snd whole) /\
  openInterest <$> snd second = drop a (openInterest <$> snd whole) /\
  volume <$> snd second = drop a (volume <$> snd whole).
Proof.
  cbv zeta. unfold generateHistoricalData. rewrite !historyLoop_spec.
  cbn [fst snd].
  split.
  { by rewrite spotAfter_continue, futureAfter_continue, oiAfter_continue. }
  rewrite <- !list_fmap_compose, <- !fmap_drop, drop_seq.
  replace (a + b - a)%nat with b by lia.
  replace (0 + a)%nat with (a + 0)%nat by lia.
  rewrite <- (fmap_add_seq a 0 b), <- !list_fmap_compose.
  repeat split; apply list_fmap_ext; intros _ i _; unfold compose;
    cbn [spotPrice futurePrice openInterest volume historyPoint].
  - by rewrite (spotAfter_continue st rnd a (S i)), Nat.add_succ_r.
  - by rewrite (futureAfter_continue st rnd a (S i)), Nat.add_succ_r.
  - by rewrite (oiAfter_continue st rnd a (S i)), Nat.add_succ_r.
Qed.

(** ** The series under the two updaters *)

Lemma increasing_slide (prev m : list MarketDataPoint)
    (lastPoint x : MarketDataPoint) :
  increasing prev ->
  last prev = Some lastPoint ->
  length m = length prev ->
  (forall (i : nat) (p q : MarketDataPoint),
     prev !! i = Some p -> m !! i = Some q -> timestamp q = timestamp p) ->
  timestamp lastPoint < timestamp x ->
  increasing (drop 1 m ++ [x]).
Proof.
  intros Hinc Hlast Hlen Hts Hx i j a b Hij Ha Hb.
  pose proof (last_Some_length _ _ Hlast) as Hpos.
  assert (Hn : length (drop 1 m ++ [x]) = length prev).
  { rewrite evict_append_length; lia. }
  pose proof (lookup_lt_Some _ _ _ Hb) as Hj. rewrite Hn in Hj.
  rewrite evict_append_lookup in Ha by lia.
  destruct (lookup_lt_is_Some_2 prev (S i)) as [p Hp]; [lia|].
  rewrite (Hts _ _ _ Hp Ha).
  rewrite last_lookup in Hlast.
  destruct (decide (S j < length prev)%nat) as [Hlt|Hge].
  - rewrite evict_append_lookup in Hb by lia.
    destruct (lookup_lt_is_Some_2 prev (S j)) as [q Hq]; [lia|].
    rewrite (Hts _ _ _ Hq Hb). apply (Hinc (S i) (S j)); [lia|done..].
  - rewrite lookup_app_r in Hb by (rewrite length_drop; lia).
    rewrite length_drop in Hb.
    replace (j - (length m - 1))%nat with 0%nat in Hb by lia.
    injection Hb as <-.
    destruct (decide (S i = Nat.pred (length prev))) as [Heq|Hne].
    + rewrite Heq, Hlast in Hp. injection Hp as ->. done.
    + pose proof (Hinc (S i) (Nat.pred (length prev)) p lastPoint) as Hlt.
      specialize (Hlt ltac:(lia) Hp Hlast). lia.
Qed.

(** X6.  Both updaters keep the timestamps of the series strictly
    increasing, provided the point they append is later than the latest
    stored point: the history adjustment does not touch timestamps, and the
    eviction removes the oldest point only. *)
Theorem updaters_keep_timestamps_increasing `{Host}
    (prev : list MarketDataPoint) (lastPoint : MarketDataPoint) :
  increasing prev ->
  last prev = Some lastPoint ->
  (forall (dataPoint : MarketDataPoint) (newData : list MarketDataPoint),
     timestamp lastPoint < timestamp dataPoint ->
     liveUpdater dataPoint prev = JS.Ok newData -> increasing newData) /\
  (forall (d : Draws) (now labelNow : Z) (newData : list MarketDataPoint),
     timestamp lastPoint < now ->
     simulationUpdater d now labelNow prev = JS.Ok newData -> increasing newData).
Proof.
  intros Hinc Hlast. split.
  - intros dataPoint newData Hlt Hupd.
    rewrite (liveUpdater_eq _ _ _ Hlast) in Hupd. injection Hupd as <-.
    apply (increasing_slide prev _ lastPoint); try done.
    + apply adjustedHistory_length.
    + intros i p q Hp Hq. unfold adjustedHistory in Hq.
      rewrite list_lookup_fmap, Hp in Hq. by injection Hq as <-.
  - intros d now labelNow newData Hlt Hupd.
    unfold simulationUpdater, fetchLatestDataPoint in Hupd.
    rewrite (last_elem_Some _ _ Hlast) in Hupd. injection Hupd as <-.
    apply (increasing_slide prev prev lastPoint); try done.
    intros i p q Hp Hq. congruence.
Qed.

Lemma sampleHistory_increasing : increasing sampleHistory.
Proof.
  intros [|[|[|i]]] [|[|[|j]]] x y Hij Hx Hy; simpl in Hx, Hy;
    try lia; try done; injection Hx as <-; injection Hy as <-; simpl; lia.
Qed.

Lemma updaters_keep_timestamps_increasing_witness :
  increasing sampleHistory /\
  last sampleHistory = Some (samplePoint 3 101) /\
  (forall (dataPoint : MarketDataPoint) (newData : list MarketDataPoint),
     timestamp (samplePoint 3 101) < timestamp dataPoint ->
     liveUpdater dataPoint sampleHistory = JS.Ok newData -> increasing newData) /\
  (forall (d : Draws) (now labelNow : Z) (newData : list MarketDataPoint),
     timestamp (samplePoint 3 101) < now ->
     @simulationUpdater sampleHost d now labelNow sampleHistory = JS.Ok newData ->
     increasing newData).
Proof.
  split; [exact sampleHistory_increasing|]. split; [reflexivity|].
  apply (@updaters_keep_timestamps_increasing sampleHost sampleHistory
           (samplePoint 3 101) sampleHistory_increasing eq_refl).
Defined.

(** X7.  The history adjustment keeps the shape of a series of finite
    numbers up to the rounding: under a finite offset, for prices of
    moderate magnitude, the adjusted prices are finite again, and the
    difference between the spot prices of any two points, and the basis
    (future minus spot) of every point, change by at most 0.02.  An offset
    that is NaN turns both prices of every point into NaN. *)
Theorem adjustment_keeps_shape (priceDiff : Wide.number) (prev : list Wide.Point)
    (i j : nat) (p q p' q' : Wide.Point) :
  prev !! i = Some p -> prev !! j = Some q ->
  Wide.adjustedHistory priceDiff prev !! i = Some p' ->
  Wide.adjustedHistory priceDiff prev !! j = Some q' ->
  (forall d a f b : Q,
     priceDiff = Wide.Num d -> Wide.spotPrice p = Wide.Num a ->
     Wide.futurePrice p = Wide.Num f -> Wide.spotPrice q = Wide.Num b ->
     moderate d -> moderate a -> moderate f -> moderate b ->
     exists a' f' b' : Q,
       Wide.spotPrice p' = Wide.Num a' /\ Wide.futurePrice p' = Wide.Num f' /\
       Wide.spotPrice q' = Wide.Num b' /\
       (Qabs ((a' - b') - (a - b)) <= 2 # 100)%Q /\
       (Qabs ((f' - a') - (f - a)) <= 2 # 100)%Q) /\
  (priceDiff = Wide.NaN ->
   Wide.spotPrice p' = Wide.NaN /\ Wide.futurePrice p' = Wide.NaN).
Proof.
  intros Hp Hq Hp' Hq'. unfold Wide.adjustedHistory in Hp', Hq'.
  rewrite list_lookup_fmap, Hp in Hp'. rewrite list_lookup_fmap, Hq in Hq'.
  injection Hp' as <-. injection Hq' as <-.
  cbn [Wide.spotPrice Wide.futurePrice Wide.shiftPoint]. split.
  - intros d a f b -> -> -> -> _ _ _ _. cbn [Wide.add Wide.toFixed2].
    eexists _, _, _. split; [reflexivity|]. split; [reflexivity|].
    split; [reflexivity|].
    pose proof (toFixed2_error (a + d)) as H1.
    pose proof (toFixed2_error (b + d)) as H2.
    pose proof (toFixed2_error (f + d)) as H3.
    apply Qabs_Qle_condition in H1 as [? ?].
    apply Qabs_Qle_condition in H2 as [? ?].
    apply Qabs_Qle_condition in H3 as [? ?].
    split; apply Qabs_Qle_condition; split; lra.
  - intros ->. by rewrite !wide_add_nan.
Qed.

Lemma adjustment_keeps_shape_witness :
  wideHistory !! 0%nat = Some (widen (samplePoint 1 100)) /\
  wideHistory !! 2%nat = Some (widen (samplePoint 3 101)) /\
  moderate 49 /\ moderate 100 /\ moderate 115 /\ moderate 101 /\
  exists a' f' b' : Q,
    Wide.spotPrice (Wide.shiftPoint (Wide.Num 49) (widen (samplePoint 1 100)))
    = Wide.Num a' /\
    Wide.futurePrice (Wide.shiftPoint (Wide.Num 49) (widen (samplePoint 1 100)))
    = Wide.Num f' /\
    Wide.spotPrice (Wide.shiftPoint (Wide.Num 49) (widen (samplePoint 3 101)))
    = Wide.Num b' /\
    (Qabs ((a' - b') - (100 - 101)) <= 2 # 100)%Q /\
    (Qabs ((f' - a') - (100 + 15 - 100)) <= 2 # 100)%Q.
Proof.
  assert (Hm : moderate 49 /\ moderate 100 /\ moderate (100 + 15) /\ moderate 101).
  { repeat split; vm_compute; discriminate. }
  destruct Hm as (Hd & Ha & Hf & Hb).
  split; [reflexivity|]. split; [reflexivity|].
  split; [exact Hd|]. split; [exact Ha|].
  split; [vm_compute; discriminate|]. split; [exact Hb|].
  apply (proj1 (adjustment_keeps_shape (Wide.Num 49) wideHistory 0 2
                  (widen (samplePoint 1 100)) (widen (samplePoint 3 101))
                  (Wide.shiftPoint (Wide.Num 49) (widen (samplePoint 1 100)))
                  (Wide.shiftPoint (Wide.Num 49) (widen (samplePoint 3 101)))
                  eq_refl eq_refl eq_refl eq_refl)
           49 100 (100 + 15) 101 eq_refl eq_refl eq_refl eq_refl Hd Ha Hf Hb)%Q.
Defined.

Lemma Qle_bool_comp (x y : Q) : (x == y)%Q -> Qle_bool 0 x = Qle_bool 0 y.
Proof.
  intros Hxy. destruct (Qle_bool 0 y) eqn:Hy.
  - apply Qle_bool_iff. apply Qle_bool_iff in Hy. by rewrite Hxy.
  - apply not_true_iff_false. intros Hx. apply Qle_bool_iff in Hx.
    rewrite Hxy in Hx. apply Qle_bool_iff in Hx. congruence.
Qed.

(** The rounding depends on the value only, not on the fraction that
    represents it. *)
Lemma toFixed2_comp (x y : Q) : (x == y)%Q -> JS.toFixed2 x = JS.toFixed2 y.
Proof.
  intros Hxy. unfold JS.toFixed2, JS.nearest_hundredth.
  rewrite (Qle_bool_comp x y Hxy). f_equal.
  destruct (Qle_bool 0 y); [|f_equal]; apply Qfloor_comp; by rewrite Hxy.
Qed.

Lemma floor_half (n : Z) : Qfloor (inject_Z n + (1 # 2)) = n.
Proof.
  assert (Hr : (inject_Z n <= inject_Z n + (1 # 2) < inject_Z (n + 1))%Q).
  { rewrite inject_Z_plus. change (inject_Z 1) with 1%Q. split; lra. }
  apply floor_range in Hr. unfold JS.Math_floor in Hr. lia.
Qed.

(** A rounded number is left alone by the rounding. *)
Lemma toFixed2_idempotent (x : Q) : JS.toFixed2 (JS.toFixed2 x) = JS.toFixed2 x.
Proof.
  unfold JS.toFixed2 at 1 3. f_equal.
  set (n := JS.nearest_hundredth x).
  assert (Hv : (JS.toFixed2 x * 100 == inject_Z n)%Q).
  { unfold JS.toFixed2. fold n. rewrite hundredth_inject. field. }
  unfold JS.nearest_hundredth.
  destruct (Qle_bool 0 (JS.toFixed2 x)).
  - transitivity (Qfloor (inject_Z n + (1 # 2))); [|apply floor_half].
    apply Qfloor_comp. by rewrite Hv.
  - transitivity (- Qfloor (inject_Z (- n) + (1 # 2))); [|rewrite floor_half; lia].
    f_equal. apply Qfloor_comp. rewrite inject_Z_opp, <- Hv. field.
Qed.

(** X8.  When the fetched spot price equals the latest stored one, the live
    refresh is a plain sliding-window append: every stored point whose
    prices came out of the rounding (as all generated and adjusted points
    do) is kept exactly as it is, the oldest is evicted and the fetched
    point appended. *)
Theorem refresh_without_level_change (prev : list MarketDataPoint)
    (lastSimulated dataPoint : MarketDataPoint) :
  last prev = Some lastSimulated ->
  (spotPrice dataPoint == spotPrice lastSimulated)%Q ->
  (forall p : MarketDataPoint, p ∈ prev ->
     exists s f : Q, spotPrice p = JS.toFixed2 s /\ futurePrice p = JS.toFixed2 f) ->
  liveUpdater dataPoint prev = JS.Ok (drop 1 prev ++ [dataPoint]).
Proof.
  intros Hlast Heq Hround. rewrite (liveUpdater_eq _ _ _ Hlast).
  do 3 f_equal. unfold adjustedHistory.
  rewrite <- (list_fmap_id prev) at 2. apply list_fmap_ext.
  intros i p Hp. destruct (Hround p) as (s & f & Hs & Hf).
  { by apply list_elem_of_lookup_2 in Hp. }
  destruct p as [t l sp fp oi v]. simpl in Hs, Hf. subst sp fp.
  unfold shiftPoint. simpl. f_equal.
  - rewrite <- (toFixed2_idempotent s) at 2. apply toFixed2_comp. lra.
  - rewrite <- (toFixed2_idempotent f) at 2. apply toFixed2_comp. lra.
Qed.

Lemma refresh_without_level_change_witness :
  last roundedHistory = Some (shiftPoint 49 (samplePoint 3 101)) /\
  (spotPrice (samplePoint 4 150)
   == spotPrice (shiftPoint 49 (samplePoint 3 101)))%Q /\
  liveUpdater (samplePoint 4 150) roundedHistory
  = JS.Ok (drop 1 roundedHistory ++ [samplePoint 4 150]).
Proof.
  split; [reflexivity|]. split; [reflexivity|].
  apply (refresh_without_level_change roundedHistory
           (shiftPoint 49 (samplePoint 3 101)) (samplePoint 4 150));
    [reflexivity | reflexivity |].
  intros p Hp. unfold roundedHistory, adjustedHistory in Hp.
  apply list_elem_of_fmap in Hp as (q & -> & _).
  by eexists _, _.
Defined.

Lemma wide_sub_nan (x : Wide.number) : Wide.sub Wide.NaN x = Wide.NaN.
Proof. by destruct x. Qed.

(** X9.  What the stat cards show right after a live refresh of a series
    of at least two points: the latest point is the fetched one, the
    previous one is the adjusted former latest point, the open-interest
    change is the fetched open interest minus the one of the former latest
    point, and the basis is the one of the fetched point.  When the fetched
    and the former latest spot price are finite numbers of moderate
    magnitude, the price change on display is a number less than 0.01 in
    absolute value, because the previous point has been shifted onto the
    fetched price; when the fetched spot price is NaN, the price change is
    NaN. *)
Theorem stats_after_live_refresh (prev newData : list Wide.Point)
    (lastSimulated dataPoint : Wide.Point) :
  (1 < length prev)%nat ->
  last prev = Some lastSimulated ->
  Wide.liveUpdater dataPoint prev = JS.Ok newData ->
  Stats.latest newData = Some dataPoint /\
  Stats.previous newData
  = Some (Wide.shiftPoint
            (Wide.sub (Wide.spotPrice dataPoint) (Wide.spotPrice lastSimulated))
            lastSimulated) /\
  Stats.oiDiff newData
  = Wide.sub (Wide.openInterest dataPoint) (Wide.openInterest lastSimulated) /\
  Stats.basis newData
  = Wide.sub (Wide.futurePrice dataPoint) (Wide.spotPrice dataPoint) /\
  (forall P0 Q0 : Q,
     Wide.spotPrice lastSimulated = Wide.Num P0 ->
     Wide.spotPrice dataPoint = Wide.Num Q0 ->
     moderate P0 -> moderate Q0 ->
     exists d : Q, Stats.priceDiff newData = Wide.Num d /\ (Qabs d < 1 # 100)%Q) /\
  (Wide.spotPrice dataPoint = Wide.NaN -> Stats.priceDiff newData = Wide.NaN).
Proof.
  intros Hlen Hlast Hupd.
  rewrite (wide_liveUpdater_eq _ _ _ Hlast) in Hupd. injection Hupd as <-.
  set (d := Wide.sub (Wide.spotPrice dataPoint) (Wide.spotPrice lastSimulated)).
  set (newData := drop 1 (Wide.adjustedHistory d prev) ++ [dataPoint]).
  assert (Hn : length newData = length prev).
  { unfold newData.
    rewrite evict_append_length; rewrite wide_adjustedHistory_length; lia. }
  assert (Hl : Stats.latest newData = Some dataPoint).
  { unfold Stats.latest. rewrite Hn.
    replace (0 <? length prev)%nat with true by (symmetry; apply Nat.ltb_lt; lia).
    unfold newData. rewrite lookup_app_r by
      (rewrite length_drop, wide_adjustedHistory_length; lia).
    rewrite length_drop, wide_adjustedHistory_length.
    by replace (length prev - 1 - (length prev - 1))%nat with 0%nat by lia. }
  assert (Hp : Stats.previous newData = Some (Wide.shiftPoint d lastSimulated)).
  { unfold Stats.previous. rewrite Hn.
    replace (1 <? length prev)%nat with true by (symmetry; apply Nat.ltb_lt; lia).
    unfold newData. rewrite evict_append_lookup
      by (rewrite wide_adjustedHistory_length; lia).
    unfold Wide.adjustedHistory. rewrite list_lookup_fmap.
    rewrite last_lookup in Hlast.
    replace (S (length prev - 2)) with (Nat.pred (length prev)) by lia.
    by rewrite Hlast. }
  split; [done|]. split; [done|].
  unfold Stats.priceDiff, Stats.oiDiff, Stats.basis. rewrite Hl, Hp.
  cbn [Wide.spotPrice Wide.openInterest Wide.shiftPoint].
  split; [done|]. split; [done|]. split.
  - intros P0 Q0 HP HQ _ _. unfold d. rewrite HP, HQ.
    cbn [Wide.sub Wide.add Wide.toFixed2]. eexists. split; [reflexivity|].
    pose proof (toFixed2_error (P0 + (Q0 - P0))) as He.
    apply Qabs_Qle_condition in He as [? ?].
    apply Qabs_Qlt_condition. split; lra.
  - intros Hnan. rewrite Hnan. apply wide_sub_nan.
Qed.

Lemma stats_after_live_refresh_witness :
  (1 < length wideHistory)%nat /\
  last wideHistory = Some (widen (samplePoint 3 101)) /\
  Wide.liveUpdater nanPoint wideHistory
  = JS.Ok (drop 1 (Wide.adjustedHistory Wide.NaN wideHistory) ++ [nanPoint]) /\
  Stats.latest (drop 1 (Wide.adjustedHistory Wide.NaN wideHistory) ++ [nanPoint])
  = Some nanPoint /\
  Stats.priceDiff (drop 1 (Wide.adjustedHistory Wide.NaN wideHistory) ++ [nanPoint])
  = Wide.NaN.
Proof.
  split; [simpl; lia|]. split; [reflexivity|]. split; [reflexivity|].
  destruct (stats_after_live_refresh wideHistory
              (drop 1 (Wide.adjustedHistory Wide.NaN wideHistory) ++ [nanPoint])
              (widen (samplePoint 3 101)) nanPoint)
    as (Hl & _ & _ & _ & _ & Hd); [simpl; lia | reflexivity | reflexivity |].
  split; [exact Hl | exact (Hd eq_refl)].
Defined.

(** ** The adapters *)

Lemma truthy_empty (s : string) : JS.truthy s = false <-> s = "".
Proof. destruct s; simpl; split; congruence. Qed.

(** X10.  [getAI]: a key typed by the user always wins over the key of the
    environment; the environment key is used only when nothing is typed; the
    call throws exactly when neither is a non-empty string, always with the
    "API Key is missing" message; and a client never holds an empty key. *)
Theorem getAI_key_precedence `{Host} (apiKey : string) :
  (JS.truthy apiKey = true -> getAI apiKey = JS.Ok apiKey) /\
  (forall k : string, getAI apiKey = JS.Ok k ->
     JS.truthy k = true /\
     (k = apiKey \/ (apiKey = "" /\ process_env_API_KEY = Some k))) /\
  (forall e : JS.exn, getAI apiKey = JS.Throw e ->
     e = JS.Error missingKeyMessage /\ apiKey = "" /\
     (process_env_API_KEY = None \/ process_env_API_KEY = Some "")).
Proof.
  split; [apply getAI_given|]. unfold getAI.
  destruct (JS.truthy apiKey) eqn:Ht.
  - rewrite Ht. split; [intros k [= <-]; auto | intros e [=]].
  - apply truthy_empty in Ht as ->.
    destruct process_env_API_KEY as [k'|]; [destruct (JS.truthy k') eqn:Hk|].
    + split; [intros k [= <-]; auto | intros e [=]].
    + apply truthy_empty in Hk as ->. split; [intros k [=] | intros e [= <-]; auto].
    + split; [intros k [=] | intros e [= <-]; auto].
Qed.

(** X12.  What a successful fetch returns.  The reply held a JSON block
    that parsed to an object, or no block at all (a block that parsed to
    [null] or to a primitive makes the fetch fail); the point is stamped
    with the clock reading; its volume is the one of the object, and 1000
    when that is zero, so never zero; the option series are those of the
    object, and none when the field is not an array; the sources are the
    grounding sources of the response; and whenever the spot price of the
    object is not zero the three prices are those of the object, whatever
    numbers the text contains. *)
Theorem fetch_result_content `{Host} (apiKey : string)
    (response : GenerateContentResponse) (now labelNow : Z)
    (res : MarketFetchResult) :
  fetchRealTimeMarketData apiKey (JS.Ok response) now labelNow = JS.Ok res ->
  exists parsed : ParsedData,
    default (JsonObject emptyParsed) (parseJsonBlock (orElse (text response) ""))
    = JsonObject parsed /\
    timestamp (dataPoint res) = now /\
    timeLabel (dataPoint res) = toLocaleTimeString labelNow /\
    volume (dataPoint res)
    = (if Qeq_bool (p_volume parsed) 0 then 1000 else p_volume parsed)%Q /\
    ~ (volume (dataPoint res) == 0)%Q /\
    optionSeries res = default [] (p_optionSeries parsed) /\
    sources res = groundingSources response /\
    (~ (p_spotPrice parsed == 0)%Q ->
     spotPrice (dataPoint res) = p_spotPrice parsed /\
     futurePrice (dataPoint res) = p_futurePrice parsed /\
     openInterest (dataPoint res) = p_openInterest parsed).
Proof.
  unfold fetchRealTimeMarketData.
  destruct (getAI apiKey) as [k|e0]; [|done].
  cbv zeta. set (t := orElse (text response) "").
  assert (Hvol : forall v : Q,
            ~ ((if Qeq_bool v 0 then 1000 else v) == 0)%Q).
  { intros v. destruct (Qeq_bool v 0) eqn:Hv; [done|].
    intros Hq. apply Qeq_bool_iff in Hq. congruence. }
  destruct (default (JsonObject emptyParsed) (parseJsonBlock t))
    as [| |parsed]; [done| |].
  { by destruct (extractNumbers t) as [|n0 [|n1 [|n2 rest]]]. }
  intros Hres. exists parsed. split; [done|].
  destruct (Qeq_bool (p_spotPrice parsed) 0) eqn:Hz.
  - apply Qeq_bool_iff in Hz.
    destruct (extractNumbers t) as [|n0 [|n1 [|n2 rest]]] eqn:Hn; [done..|].
    injection Hres as <-. simpl.
    split; [done|]. split; [done|]. split; [done|]. split; [apply Hvol|].
    split; [done|]. split; [done|]. intros Hnz. by destruct Hnz.
  - injection Hres as <-. simpl.
    split; [done|]. split; [done|]. split; [done|]. split; [apply Hvol|].
    done.
Qed.

Lemma fetch_result_content_witness :
  exists res parsed,
    @fetchRealTimeMarketData sampleHost "k"
      (JS.Ok {| text := Some "A"; groundingChunks := None |}) 100 200
    = JS.Ok res /\
    @parseJsonBlock sampleHost "A" = Some (JsonObject parsed) /\
    timestamp (dataPoint res) = 100 /\
    ~ (volume (dataPoint res) == 0)%Q /\
    optionSeries res = [] /\
    spotPrice (dataPoint res) = p_spotPrice parsed /\
    p_spotPrice parsed = 150%Q.
Proof.
  eexists.
  destruct (@fetch_result_content sampleHost "k"
              {| text := Some "A"; groundingChunks := None |} 100 200 _ eq_refl)
    as (parsed & Hp & Ht & _ & _ & Hv & Ho & _ & Hs).
  injection Hp as <-. eexists. split; [reflexivity|]. split; [reflexivity|].
  split; [exact Ht|]. split; [exact Hv|]. split; [exact Ho|].
  split; [|reflexivity]. apply Hs. by vm_compute.
Defined.

Lemma removeCommas_commas (n : nat) : Wide.removeCommas (commas n) = "".
Proof. induction n as [|n IH]; [done|]. cbn [commas Wide.removeCommas]. exact IH. Qed.

(** X25.  The regular-expression fallback of the fetch, for a response
    without a usable JSON block.  It fails exactly when the expression
    finds fewer than three matches, and a match without any digit counts
    like the others.  Otherwise the point is stamped with the clock
    reading, has the volume 1000, and its spot price, future price and open
    interest are the first three matches, in this order, as [parseFloat]
    reads them once their commas are removed.  A match made of commas only
    is read as NaN, so the fetch returns a spot price that is NaN whenever
    the first match is such a match. *)
Theorem fallback_reads_matches `{Host} (matches : list string) (now labelNow : Z) :
  ((exists e, Wide.fetchFallback matches now labelNow = JS.Throw e)
   <-> (length matches < 3)%nat) /\
  (forall point : Wide.Point,
     Wide.fetchFallback matches now labelNow = JS.Ok point ->
     Wide.timestamp point = now /\
     Wide.volume point = Wide.Num 1000 /\
     Wide.parseMatch <$> matches !! 0%nat = Some (Wide.spotPrice point) /\
     Wide.parseMatch <$> matches !! 1%nat = Some (Wide.futurePrice point) /\
     Wide.parseMatch <$> matches !! 2%nat = Some (Wide.openInterest point)) /\
  (forall n : nat, Wide.parseMatch (commas n) = Wide.NaN) /\
  (forall (n : nat) (m1 m2 : string) (rest : list string),
     exists point : Wide.Point,
       Wide.fetchFallback (commas n :: m1 :: m2 :: rest) now labelNow
       = JS.Ok point /\
       Wide.spotPrice point = Wide.NaN).
Proof.
  assert (Hnan : forall n : nat, Wide.parseMatch (commas n) = Wide.NaN).
  { intros n. unfold Wide.parseMatch. by rewrite removeCommas_commas. }
  split; [|split; [|split; [exact Hnan|]]].
  - unfold Wide.fetchFallback.
    destruct matches as [|m0 [|m1 [|m2 rest]]]; csimpl.
    1-3: split; [intros _; lia | by eexists].
    split; [intros [e [=]] | lia].
  - intros point. unfold Wide.fetchFallback.
    destruct matches as [|m0 [|m1 [|m2 rest]]]; csimpl; [done..|].
    by intros [= <-].
  - intros n m1 m2 rest. unfold Wide.fetchFallback. csimpl. rewrite Hnan.
    by eexists.
Qed.

(** X13.  The grounding sources: a response without grounding chunks has no
    sources; chunks without a web page are dropped and every other chunk
    gives one source, in order; and no source has an empty title (a missing
    or empty title becomes "Source"). *)
Theorem grounding_sources_named (response : GenerateContentResponse) :
  (groundingChunks response = None -> groundingSources response = []) /\
  length (groundingSources response)
  = length (omap id (default [] (groundingChunks response))) /\
  Forall (fun s : Source => JS.truthy (title s) = true)
    (groundingSources response).
Proof.
  unfold groundingSources. destruct (groundingChunks response) as [chunks|];
    [|by repeat split].
  split; [done|]. simpl. induction chunks as [|[web|] chunks [IHl IHf]].
  - by split.
  - cbn [omap list_omap]. simpl. split; [by f_equal|].
    constructor; [|done]. simpl. unfold orElse.
    destruct (web_title web) as [t|]; [|done]. by destruct (JS.truthy t) eqn:Ht.
  - done.
Qed.

(** X14.  The outcomes of [analyzeMarketData].  It throws exactly when no
    client can be built or the series is empty.  Every result it returns is
    either the parsed answer of the remote side carrying the given sources,
    or the neutral fallback, which carries no sources, has confidence 0 and
    the basis of the latest point. *)
Theorem analyze_outcomes `{Host} (data : list MarketDataPoint)
    (sources : list Source) (apiKey userPrompt : string) (remote : Remote) :
  ((exists e, analyzeMarketData data sources apiKey userPrompt remote = JS.Throw e)
   <-> (exists e, getAI apiKey = JS.Throw e) \/ data = []) /\
  (forall a : MarketAnalysis,
     analyzeMarketData data sources apiKey userPrompt remote = JS.Ok a ->
     (analysisAttempt sources remote = JS.Ok a /\ sourceUrls a = sources) \/
     (exists latest e,
        last data = Some latest /\ analysisAttempt sources remote = JS.Throw e /\
        a = fallbackAnalysis (futurePrice latest - spotPrice latest)%Q /\
        sentiment a = NEUTRAL /\ confidence a = 0%Q /\ sourceUrls a = [])).
Proof.
  unfold analyzeMarketData.
  destruct (getAI apiKey) as [k|e0].
  2:{ split; [split; [eauto | by eexists] | done]. }
  unfold JS.last_elem. destruct (last data) as [latest|] eqn:Hl.
  - split.
    + split.
      * intros [e He]. by destruct (analysisAttempt sources remote).
      * intros [[e [=]]| ->]. done.
    + intros a Ha.
      destruct (analysisAttempt sources remote) as [a'|e] eqn:Hat.
      * injection Ha as ->. left. split; [done|].
        unfold analysisAttempt in Hat. destruct remote as [response|]; [|done].
        destruct (JS.truthy _); [|done].
        destruct (parseAnalysis _); [|done]. by injection Hat as <-.
      * injection Ha as <-. right. by exists latest, e.
  - apply last_None in Hl as ->. split; [|done].
    split; [by right | by eexists].
Qed.

(** ** The component as a whole *)

Lemma fetch_ok_has_client `{Host} (key : string) (remote : Remote)
    (now labelNow : Z) (res : MarketFetchResult) :
  fetchRealTimeMarketData key remote now labelNow = JS.Ok res ->
  exists k, getAI key = JS.Ok k.
Proof.
  unfold fetchRealTimeMarketData. destruct (getAI key) as [k|]; [|done]. by exists k.
Qed.

(** The state after a suspended fetch has resumed with a result. *)
Lemma settle_fetch_state `{Host} (st : AppState) (i : nat)
    (key question : string) (remote : Remote) (now labelNow : Z)
    (res : MarketFetchResult) (lastSimulated : MarketDataPoint) :
  inFlight st !! i = Some (AwaitFetch key question) ->
  fetchRealTimeMarketData key remote now labelNow = JS.Ok res ->
  last (data st) = Some lastSimulated ->
  exists st',
    step st (Settle i remote now labelNow) = JS.Ok st' /\
    data st' = drop 1 (adjustedHistory
                         (spotPrice (dataPoint res) - spotPrice lastSimulated)%Q
                         (data st)) ++ [dataPoint res] /\
    inFlight st' = delete i (inFlight st)
                   ++ [AwaitAnalysis [dataPoint res] (sources res) key question] /\
    analysis st' = analysis st /\ analysisStatus st' = analysisStatus st /\
    dataMode st' = dataMode st /\ isAutoUpdate st' = isAutoUpdate st /\
    nextUpdateCountdown st' = nextUpdateCountdown st.
Proof.
  intros Hi Hf Hlast.
  pose proof (liveUpdater_eq (dataPoint res) _ _ Hlast) as Hu.
  set (newData := drop 1 _ ++ [dataPoint res]) in *.
  rewrite (settle_fetch_success st i key question remote now labelNow res newData
             Hi Hf Hu).
  unfold afterFetch. cbn [data setInFlight]. rewrite Hu. cbv zeta.
  eexists. split; [reflexivity|].
  by destruct (optionSeries res).
Qed.

(** X15.  In a live cycle only the fetch can end in ERROR.  Once the fetch
    has resumed with a result, the analysis call is the last suspended call,
    and whatever the remote side then answers (a rejection, an empty or a
    malformed text included), resuming it completes, sets the status to
    SUCCESS, puts an analysis on display (the neutral fallback in the bad
    cases), clears the loading flag, resets the countdown to 60 and leaves
    the series alone. *)
Theorem analysis_stage_never_errors `{Host} (st : AppState) (i : nat)
    (key question : string) (remote remote' : Remote)
    (now labelNow now' labelNow' : Z)
    (res : MarketFetchResult) (lastSimulated : MarketDataPoint) :
  inFlight st !! i = Some (AwaitFetch key question) ->
  fetchRealTimeMarketData key remote now labelNow = JS.Ok res ->
  last (data st) = Some lastSimulated ->
  exists st1 st2 a,
    step st (Settle i remote now labelNow) = JS.Ok st1 /\
    step st1 (Settle (length (inFlight st) - 1) remote' now' labelNow') = JS.Ok st2 /\
    analysisStatus st2 = SUCCESS /\ analysis st2 = Some a /\
    isDataLoading st2 = false /\ nextUpdateCountdown st2 = 60 /\
    data st2 = data st1 /\ inFlight st2 = delete i (inFlight st).
Proof.
  intros Hi Hf Hlast.
  destruct (settle_fetch_state st i key question remote now labelNow res
              lastSimulated Hi Hf Hlast)
    as (st1 & Hstep & Hdata & Hfl & _).
  destruct (fetch_ok_has_client _ _ _ _ _ Hf) as [k Hk].
  destruct (analyzeMarketData_inside_try [dataPoint res] (dataPoint res)
              (sources res) key k question remote' Hk eq_refl) as (a & Ha & _).
  assert (Hidx : (length (inFlight st) - 1)%nat = length (delete i (inFlight st))).
  { by rewrite length_delete. }
  exists st1. eexists. exists a. split; [exact Hstep|].
  unfold step. rewrite Hfl, Hidx, list_lookup_middle by done.
  unfold resume. rewrite Ha. split; [reflexivity|]. simpl.
  rewrite (delete_middle _ []), app_nil_r. done.
Qed.

Lemma analysis_stage_never_errors_witness :
  inFlight liveBusy !! 0%nat = Some (AwaitFetch "k" "") /\
  last (data liveBusy) = Some (samplePoint 3 101) /\
  exists st1 st2 a,
    @step sampleHost liveBusy (Settle 0 (replyWith "A") 100 100) = JS.Ok st1 /\
    @step sampleHost st1
      (Settle (length (inFlight liveBusy) - 1) (JS.Throw JS.RemoteFailure) 200 200)
    = JS.Ok st2 /\
    analysisStatus st2 = SUCCESS /\ analysis st2 = Some a /\
    isDataLoading st2 = false /\ nextUpdateCountdown st2 = 60 /\
    data st2 = data st1 /\ inFlight st2 = delete 0%nat (inFlight liveBusy).
Proof.
  split; [reflexivity|]. split; [reflexivity|].
  apply (@analysis_stage_never_errors sampleHost liveBusy 0 "k" ""
           (replyWith "A") (JS.Throw JS.RemoteFailure) 100 100 200 200 _
           (samplePoint 3 101) eq_refl eq_refl eq_refl).
Defined.

(** What one event does to the countdown. *)
Lemma step_countdown_cases `{Host} (st st' : AppState) (ev : Event) :
  step st ev = JS.Ok st' ->
  (nextUpdateCountdown st' = nextUpdateCountdown st \/
   nextUpdateCountdown st' = 60 \/
   (0 < nextUpdateCountdown st /\
    nextUpdateCountdown st' = nextUpdateCountdown st - 1)) /\
  (ev = CountdownTick -> autoUpdateRunning st = true ->
   nextUpdateCountdown st'
   = if 0 <? nextUpdateCountdown st then nextUpdateCountdown st - 1 else 60).
Proof.
  intros Hs.
  destruct ev as [d now labelNow u r| | |i remote now labelNow| | | |s|s];
    unfold step in Hs; (split; [|try done]).
  - destruct (simulationRunning st); [|injection Hs as <-; by left].
    destruct (simulationUpdater d now labelNow (data st)); [|done].
    injection Hs as <-. left. by destruct (Qgtb u (7 # 10)).
  - injection Hs as <-. left. by destruct (autoUpdateRunning st).
  - injection Hs as <-. destruct (autoUpdateRunning st); [|by left]. simpl.
    destruct (Z.ltb_spec 0 (nextUpdateCountdown st)); [right; right | right; left];
      done.
  - intros _ Hrun. rewrite Hrun in Hs. by injection Hs as <-.
  - destruct (inFlight st !! i) as [[key q|arg srcs key q|arg key q]|];
      [| | |injection Hs as <-; by left]; unfold resume in Hs.
    + unfold afterFetch in Hs.
      destruct (fetchRealTimeMarketData key remote now labelNow) as [res|e];
        [|injection Hs as <-; by left].
      destruct (liveUpdater _ _); [|done]. injection Hs as <-. left.
      by destruct (0 <? length (optionSeries res))%nat.
    + injection Hs as <-.
      destruct (analyzeMarketData arg srcs key q remote); simpl;
        [right; by left | by left].
    + injection Hs as <-. left.
      by destruct (analyzeMarketData arg [] key q remote).
  - injection Hs as <-. left. unfold handleManualRefresh.
    by destruct (refreshDisabled st), (dataMode st).
  - injection Hs as <-. right. left. unfold toggleMode. by destruct (dataMode st).
  - injection Hs as <-. destruct (dataMode st); simpl; [by left | right; by left].
  - injection Hs as <-.
    destruct (String.eqb s (apiKey st)); simpl; [by left | right; by left].
  - injection Hs as <-.
    destruct (String.eqb s (userQuestion st)); simpl; [by left | right; by left].
Qed.

Lemma step_countdown `{Host} (st st' : AppState) (ev : Event) :
  step st ev = JS.Ok st' ->
  0 <= nextUpdateCountdown st <= 60 ->
  0 <= nextUpdateCountdown st' <= 60.
Proof.
  intros Hs Hc. destruct (step_countdown_cases st st' ev Hs) as [Hcases _]. lia.
Qed.

(** X17.  The countdown shown on the auto-update button.  Every event
    either leaves it, resets it to 60, or takes one off a positive value;
    a tick of the countdown interval takes one off a positive value and
    wraps from 0 to 60.  So a countdown between 0 and 60 stays between 0
    and 60 whatever happens. *)
Theorem countdown_stays_in_range `{Host} (st : AppState) :
  (forall (ev : Event) (st' : AppState),
     step st ev = JS.Ok st' ->
     (nextUpdateCountdown st' = nextUpdateCountdown st \/
      nextUpdateCountdown st' = 60 \/
      (0 < nextUpdateCountdown st /\
       nextUpdateCountdown st' = nextUpdateCountdown st - 1)) /\
     (ev = CountdownTick -> autoUpdateRunning st = true ->
      nextUpdateCountdown st'
      = if 0 <? nextUpdateCountdown st then nextUpdateCountdown st - 1 else 60)) /\
  (0 <= nextUpdateCountdown st <= 60 ->
   forall (evs : list Event) (st' : AppState),
     run st evs = JS.Ok st' -> 0 <= nextUpdateCountdown st' <= 60).
Proof.
  split; [intros ev st'; apply step_countdown_cases|].
  intros Hc evs. revert st Hc. induction evs as [|ev evs IH]; intros st Hc st' Hr.
  - by injection Hr as <-.
  - cbn [run] in Hr. destruct (step st ev) as [st1|] eqn:Hs; [|done].
    apply (IH st1); [|done]. by apply (step_countdown st st1 ev).
Qed.

Lemma countdown_stays_in_range_witness :
  0 <= nextUpdateCountdown liveIdle <= 60 /\
  @run sampleHost liveIdle [CountdownTick; AutoUpdateTick; CountdownTick]
  = JS.Ok (setNextUpdateCountdown 58 liveBusy) /\
  0 <= nextUpdateCountdown (setNextUpdateCountdown 58 liveBusy) <= 60 /\
  @step sampleHost (setNextUpdateCountdown 0 liveIdle) CountdownTick
  = JS.Ok liveIdle /\
  nextUpdateCountdown liveIdle = 60.
Proof.
  split; [simpl; lia|]. split; [reflexivity|].
  split.
  - apply (proj2 (@countdown_stays_in_range sampleHost liveIdle)
             ltac:(simpl; lia) [CountdownTick; AutoUpdateTick; CountdownTick]).
    reflexivity.
  - split; [reflexivity|].
    apply (proj2 (proj1 (@countdown_stays_in_range sampleHost
                           (setNextUpdateCountdown 0 liveIdle))
                    CountdownTick liveIdle eq_refl) eq_refl eq_refl).
Defined.

Lemma pending_delete (l : list Suspended) (i : nat) (call : Suspended) :
  l !! i = Some call ->
  (sum_list (settlesLeft <$> delete i l) + settlesLeft call
   = sum_list (settlesLeft <$> l))%nat.
Proof.
  revert i. induction l as [|c l IH]; intros [|i] Hi; csimpl in *; try done.
  - injection Hi as ->. lia.
  - specialize (IH i Hi). lia.
Qed.

Lemma pending_snoc (l : list Suspended) (call : Suspended) :
  sum_list (settlesLeft <$> (l ++ [call]))
  = (sum_list (settlesLeft <$> l) + settlesLeft call)%nat.
Proof. induction l as [|c l IH]; csimpl; lia. Qed.

(** X18.  Every settlement makes progress.  Counting two settlements for a
    suspended fetch and one for a suspended analysis, resuming any suspended
    call on a non-empty series completes and lowers the count by one (the
    fetch went through and its analysis is now suspended, or an analysis
    ended) or by two (the fetch failed): a settlement never starts a new
    cycle, and a cycle takes at most two settlements. *)
Theorem settle_makes_progress `{Host} (st : AppState) (i : nat)
    (call : Suspended) (remote : Remote) (now labelNow : Z) :
  inFlight st !! i = Some call ->
  (0 < length (data st))%nat ->
  exists st',
    step st (Settle i remote now labelNow) = JS.Ok st' /\
    (pendingWork st' < pendingWork st)%nat /\
    (pendingWork st <= pendingWork st' + 2)%nat.
Proof.
  intros Hi Hlen. unfold step. rewrite Hi.
  pose proof (pending_delete _ _ _ Hi) as Hd.
  destruct call as [key q|arg srcs key q|arg key q]; unfold resume.
  - unfold afterFetch.
    destruct (fetchRealTimeMarketData key remote now labelNow) as [res|e].
    + cbn [data setInFlight].
      destruct (length_pos_last (data st) Hlen) as [lastSimulated Hlast].
      rewrite (liveUpdater_eq _ _ _ Hlast). eexists. split; [reflexivity|].
      unfold pendingWork.
      destruct (0 <? length (optionSeries res))%nat; cbn [inFlight setInFlight setOptionData setData];
        rewrite pending_snoc; cbn [settlesLeft] in *; lia.
    + eexists. split; [reflexivity|]. unfold pendingWork.
      cbn [inFlight setInFlight setIsDataLoading setAnalysisStatus settlesLeft] in *. lia.
  - eexists. split; [reflexivity|]. unfold pendingWork.
    destruct (analyzeMarketData arg srcs key q remote);
      cbn [inFlight afterAnalysis setInFlight setIsDataLoading setAnalysisStatus
           setNextUpdateCountdown setAnalysis settlesLeft] in *; lia.
  - eexists. split; [reflexivity|]. unfold pendingWork.
    destruct (analyzeMarketData arg [] key q remote);
      cbn [inFlight afterManualAnalysis setInFlight setAnalysisStatus setAnalysis
           settlesLeft] in *; lia.
Qed.

Lemma settle_makes_progress_witness :
  inFlight liveBusy !! 0%nat = Some (AwaitFetch "k" "") /\
  (0 < length (data liveBusy))%nat /\
  exists st',
    @step sampleHost liveBusy (Settle 0 (replyWith "A") 100 100) = JS.Ok st' /\
    (pendingWork st' < pendingWork liveBusy)%nat /\
    (pendingWork liveBusy <= pendingWork st' + 2)%nat.
Proof.
  split; [reflexivity|]. split; [simpl; lia|].
  apply (@settle_makes_progress sampleHost liveBusy 0 (AwaitFetch "k" "")
           (replyWith "A") 100 100); [reflexivity | simpl; lia].
Defined.

(** X19.  Switching the mode away and back restores the mode and keeps the
    series and the options, but it is not a no-op: the analysis is gone,
    auto-update is off, the countdown is back at 60, nothing that was in
    flight has been cancelled, and exactly one more fetch has been started
    (on the switch that entered live mode). *)
Theorem toggle_twice (st : AppState) :
  let st2 := toggleMode (toggleMode st) in
  dataMode st2 = dataMode st /\
  data st2 = data st /\ optionData st2 = optionData st /\
  analysis st2 = None /\ isAutoUpdate st2 = false /\
  nextUpdateCountdown st2 = 60 /\
  inFlight st2 = inFlight st ++ [AwaitFetch (apiKey st) (userQuestion st)] /\
  analysisStatus st2 = match dataMode st with
                       | LIVE_SEARCH => LOADING
                       | SIMULATION => IDLE
                       end.
Proof. unfold toggleMode. destruct (dataMode st) eqn:Hm; simpl; rewrite ?Hm; done. Qed.

Lemma simulation_tick_frame `{Host} (st : AppState) (d : Draws)
    (now labelNow : Z) (u : Q) (r : nat -> Q) :
  simulationRunning st = true ->
  exists st' newData,
    step st (SimulationTick d now labelNow u r) = JS.Ok st' /\
    simulationUpdater d now labelNow (data st) = JS.Ok newData /\
    data st' = newData /\ simulationRunning st' = true /\
    analysis st' = analysis st /\ analysisStatus st' = analysisStatus st /\
    inFlight st' = inFlight st /\ dataMode st' = dataMode st /\
    isDataLoading st' = isDataLoading st.
Proof.
  intros Hrun. pose proof Hrun as Hrun'. unfold simulationRunning in Hrun'.
  destruct (dataMode st) eqn:Hmode; [|done].
  apply Nat.ltb_lt in Hrun'.
  destruct (fetchLatestDataPoint_ok (data st) d now labelNow Hrun') as [point Hp].
  unfold step. rewrite Hrun, (simulationUpdater_evicts _ _ _ _ _ Hp).
  eexists _, _. split; [reflexivity|]. split; [reflexivity|].
  assert (Hlen : (0 <? length (drop 1 (data st) ++ [point]))%nat = true).
  { apply Nat.ltb_lt. by rewrite evict_append_length. }
  destruct (Qgtb u (7 # 10)); unfold simulationRunning; simpl;
    by rewrite Hmode, Hlen.
Qed.

(** X20.  In simulated mode the interval only feeds the series: running any
    number of its ticks completes, leaves the series that the simulation
    loop computes, and never starts an analysis: the analysis on
    display, the status, the suspended calls and the mode are untouched. *)
Theorem simulation_only_feeds_series `{Host} (ticks : list (Draws * Z * Z))
    (u : Q) (r : nat -> Q) (st : AppState) :
  simulationRunning st = true ->
  exists st',
    run st (simulationTicks ticks u r) = JS.Ok st' /\
    simulate (data st) ticks = JS.Ok (data st') /\
    analysis st' = analysis st /\ analysisStatus st' = analysisStatus st /\
    inFlight st' = inFlight st /\ dataMode st' = dataMode st.
Proof.
  revert st. induction ticks as [|[[d now] labelNow] ticks IH]; intros st Hrun.
  - by exists st.
  - destruct (simulation_tick_frame st d now labelNow u r Hrun)
      as (st1 & newData & Hs & Hu & Hd & Hrun1 & Ha & Hst & Hfl & Hm & _).
    destruct (IH st1 Hrun1) as (st' & Hr & Hsim & Ha' & Hst' & Hfl' & Hm').
    exists st'. cbn [simulationTicks fmap list_fmap run simulate].
    change (list_fmap _ _ ?f ticks) with (simulationTicks ticks u r).
    cbn [fst snd]. rewrite Hs, Hu, <- Hd. split; [done|]. split; [done|].
    repeat split; congruence.
Qed.

Lemma simulation_only_feeds_series_witness :
  simulationRunning simulationIdle = true /\
  exists st',
    @run sampleHost simulationIdle (simulationTicks sampleTicks 1 (fun _ => 0%Q))
    = JS.Ok st' /\
    @simulate sampleHost (data simulationIdle) sampleTicks = JS.Ok (data st') /\
    analysis st' = analysis simulationIdle /\
    analysisStatus st' = analysisStatus simulationIdle /\
    inFlight st' = inFlight simulationIdle /\
    dataMode st' = dataMode simulationIdle.
Proof.
  split; [reflexivity|].
  apply (@simulation_only_feeds_series sampleHost sampleTicks 1 (fun _ => 0%Q)
           simulationIdle).
  reflexivity.
Defined.

(** X21.  A cold start without any key.  The component mounts in live mode
    with an empty key field and starts a fetch at once; if the environment
    holds no key either, that first cycle fails whatever the remote side
    would answer: the status becomes ERROR, no analysis is shown, nothing
    stays in flight and the series is still the bootstrap series. *)
Theorem cold_start_without_key_fails `{Host} (labelNow : Z) (clock : nat -> Z)
    (rnd : nat -> Draws) (r : nat -> Q) (remote : Remote) (now labelNow' : Z) :
  process_env_API_KEY = None ->
  let st := mount labelNow clock rnd r in
  dataMode st = LIVE_SEARCH /\ analysisStatus st = LOADING /\
  inFlight st = [AwaitFetch "" ""] /\
  exists st',
    step st (Settle 0 remote now labelNow') = JS.Ok st' /\
    analysisStatus st' = ERROR /\ analysis st' = None /\
    isDataLoading st' = false /\ inFlight st' = [] /\
    data st' = data st.
Proof.
  intros Henv st. split; [done|]. split; [done|]. split; [done|].
  eexists. split.
  - apply (settle_fetch_failure st 0 "" "" remote now labelNow'
             (JS.Error missingKeyMessage)); [done|].
    apply fetch_fails_without_client. by apply getAI_missing.
  - done.
Qed.

Lemma cold_start_without_key_fails_witness :
  @process_env_API_KEY sampleHost = None /\
  exists st',
    @step sampleHost
      (@mount sampleHost sampleNow (fun _ => sampleNow) (fun _ => sampleDraws)
         (fun _ => 1 # 2))
      (Settle 0 (replyWith "A") 100 100) = JS.Ok st' /\
    analysisStatus st' = ERROR /\ analysis st' = None /\
    isDataLoading st' = false /\ inFlight st' = [].
Proof.
  split; [reflexivity|].
  destruct (@cold_start_without_key_fails sampleHost sampleNow
              (fun _ => sampleNow) (fun _ => sampleDraws) (fun _ => 1 # 2)
              (replyWith "A") 100 100 eq_refl)
    as (_ & _ & _ & st' & Hs & He & Ha & Hl & Hf & _).
  exists st'. repeat split; assumption.
Defined.

(** ** The views *)

(** X22.  The analysis panel always shows exactly one of its three panes
    (the empty state, the spinner, the result), and it shows the spinner
    exactly when the refresh button is disabled. *)
Theorem panel_shows_one_pane (st : AppState) :
  (Panel.panes st = (true, false, false) \/
   Panel.panes st = (false, true, false) \/
   Panel.panes st = (false, false, true)) /\
  Panel.showsLoading (analysis st) (analysisStatus st) = refreshDisabled st /\
  (Panel.showsResult (analysis st) (analysisStatus st) = true ->
   exists a, analysis st = Some a).
Proof.
  unfold Panel.panes, Panel.showsEmpty, Panel.showsLoading, Panel.showsResult,
    refreshDisabled.
  destruct (analysis st) as [a|], (analysisStatus st); simpl;
    repeat split; eauto; done.
Qed.

(** X23.  The rows of the option chart.  The chart never gets an empty
    array: an empty option list gives the single placeholder row "No Data"
    (and, when not loading, the overlay that says so); a non-empty list
    gives one row per series, in order, with the same expiry and open
    interests.  The axis label of every row is its expiry, whether or not
    the series has a code. *)
Theorem option_rows (data : list OptionSeries) :
  displayData data <> [] /\
  length (displayData data) = Nat.max 1 (length data) /\
  Forall (fun row : DisplayRow => displayLabel row = row_expiry row)
    (displayData data) /\
  (data = [] -> displayData data = [noDataRow] /\ showsNoOptions data false = true) /\
  (data <> [] ->
     row_expiry <$> displayData data = expiry <$> data /\
     row_callOI <$> displayData data = callOI <$> data /\
     row_putOI <$> displayData data = putOI <$> data).
Proof.
  destruct data as [|d data].
  - repeat split; try done. by repeat constructor.
  - unfold displayData. cbn [length Nat.ltb Nat.leb].
    split; [done|]. split; [rewrite length_fmap; simpl; lia|].
    split.
    + apply Forall_fmap, Forall_forall. intros o _. unfold displayRow. simpl.
      destruct (code o) as [c|]; [by destruct (JS.truthy c) | done].
    + split; [done|]. intros _.
      rewrite <- !list_fmap_compose. repeat split; by apply list_fmap_ext.
Qed.








